(** * Explicit single-step integrators of [integrate.cpp]

    A shallow embedding of the five steppers of [src/integrate.cpp]
    ([Euler], [MidPoint], [Ralston], [RK4], [ExplicitRungeKutta]) and the
    properties stated about them.

    Numbers.  The steppers are embedded twice.  In the first embedding the
    C++ type [double] is modelled by the real numbers [R]: arithmetic is
    exact, so rounding, overflow, infinities and NaN are outside that model,
    and what is proved of it is proved in exact arithmetic.  In the second
    (module [Binary64]) a [double] is an IEEE 754 binary64 number; it decides
    the statements that exact arithmetic cannot.  Positions, velocities and
    accelerations are [double]s too: [ExplicitRungeKutta] accumulates them in
    [double] variables.  The loop counter [int i] is modelled by [nat] and
    handed to the evaluator as a [Z]; this is exact for every tableau with
    fewer than 2^31 stages.

    Effects.  [evaluateFunc] is a C function pointer, so whatever state it
    keeps is global.  A stepper is therefore a computation over an abstract
    world [W] that only the evaluator can change; reading or writing a
    [std::vector] element out of range makes the computation undefined
    ([None]). *)

From Stdlib Require Import Reals Lra ZArith List.
From Stdlib Require Floats.
From stdpp Require Import base list.
Import ListNotations.
Local Open Scope R_scope.

(** ** Data model ([data.hpp]) *)

(** Modelled from the spec: [data.hpp] is not among the sources.  A
    [DeltaState] carries the rate of change of position ([vel]) and of
    velocity ([accel]); the value-initialised [DeltaState()] is all-zero. *)
Module DeltaState.
Record t : Type := mk { vel : R; accel : R }.
Definition default : t := mk 0 0.
End DeltaState.

(** Modelled from the spec: [data.hpp] is not among the sources.  A
    [ParticleState] has the members [pos] and [vel] the steppers assign;
    [other] stands for whatever further members the struct declares. *)
Module ParticleState.
Record t (X : Type) : Type := mk { pos : R; vel : R; other : X }.
Arguments mk {X} _ _ _.
Arguments pos {X} _.
Arguments vel {X} _.
Arguments other {X} _.
(** [state.pos = p;] and [state.vel = v;] *)
Definition set_pos {X} (p : R) (s : t X) : t X := mk p (vel s) (other s).
Definition set_vel {X} (v : R) (s : t X) : t X := mk (pos s) v (other s).
End ParticleState.

(** Modelled from the spec: [data.hpp] is not among the sources.  The
    coefficients [a], [b], [c] of a Runge-Kutta method, as vectors. *)
Module ButcherTableau.
Record t : Type := mk { a : list (list R); b : list R; c : list R }.
End ButcherTableau.

(** ** Computations: world passing with undefined behaviour *)

Definition M (W A : Type) : Type := W -> option (A * W).

Definition ret {W A} (x : A) : M W A := fun w => Some (x, w).

Definition bind {W A B} (m : M W A) (k : A -> M W B) : M W B :=
  fun w => match m w with
           | Some (x, w') => k x w'
           | None => None
           end.

Definition undefined {W A} : M W A := fun _ => None.

(** A call through a function pointer: it returns a value and a new world. *)
Definition call {W A} (e : W -> A * W) : M W A := fun w => Some (e w).

Notation "x <- m ;; k" := (bind m (fun x => k))
  (at level 100, m at next level, right associativity).

(** [v[i]] of a [std::vector], as a read and as an assignment. *)
Definition vec_get {W A} (v : list A) (i : nat) : M W A :=
  match v !! i with
  | Some x => ret x
  | None => undefined
  end.

Definition vec_set {W A} (v : list A) (i : nat) (x : A) : M W (list A) :=
  if decide (i < length v)%nat then ret (<[i := x]> v) else undefined.

(** [for (int i = i0; i < i0 + n; i++) s = body(i, s);] *)
Fixpoint for_loop {W S} (n i : nat) (body : nat -> S -> M W S) (s : S) : M W S :=
  match n with
  | O => ret s
  | Datatypes.S n' => s' <- body i s ;; for_loop n' (Datatypes.S i) body s'
  end.

(** ** The steppers *)

Section Steppers.
Context {X W : Type}.

Abbreviation PState := (ParticleState.t X).
Abbreviation DState := DeltaState.t.
Abbreviation Tableau := ButcherTableau.t.

(** The evaluator of the fixed-stage steppers: a pointer to a function from
    [(const ParticleState&, double, double, const DeltaState&)] to
    [DeltaState]. *)
Definition FixedEval : Type :=
  PState -> R -> R -> DState -> W -> DState * W.

(** The evaluator of the generic stepper: a pointer to a function from
    [(const ParticleState&, double, double, const vector<DeltaState>&,
      const ButcherTableau&, int)] to [DeltaState]. *)
Definition GenericEval : Type :=
  PState -> R -> R -> list DState -> Tableau -> Z -> W -> DState * W.

Definition Euler (state : PState) (time deltaTime : R)
    (evaluateFunc : FixedEval) : M W PState :=
  k1 <- call (evaluateFunc state time deltaTime DeltaState.default) ;;
  let state := ParticleState.set_pos
    (ParticleState.pos state + deltaTime * DeltaState.vel k1) state in
  let state := ParticleState.set_vel
    (ParticleState.vel state + deltaTime * DeltaState.accel k1) state in
  ret state.

Definition MidPoint (state : PState) (time deltaTime : R)
    (evaluateFunc : FixedEval) : M W PState :=
  k1 <- call (evaluateFunc state time (0.5 * deltaTime) DeltaState.default) ;;
  let state := ParticleState.set_pos
    (ParticleState.pos state
     + deltaTime * (DeltaState.vel k1 + (deltaTime / 2) * DeltaState.vel k1))
    state in
  let state := ParticleState.set_vel
    (ParticleState.vel state + deltaTime * (DeltaState.accel k1 * 1.5))
    state in
  ret state.

Definition Ralston (state : PState) (time deltaTime : R)
    (evaluateFunc : FixedEval) : M W PState :=
  k1 <- call (evaluateFunc state time 0 DeltaState.default) ;;
  k2 <- call (evaluateFunc state time ((2.0 / 3.0) * deltaTime) k1) ;;
  let state := ParticleState.set_pos
    (ParticleState.pos state
     + deltaTime * (0.25 * DeltaState.vel k1 + 0.75 * DeltaState.vel k2))
    state in
  let state := ParticleState.set_vel
    (ParticleState.vel state
     + deltaTime * (0.25 * DeltaState.accel k1 + 0.75 * DeltaState.accel k2))
    state in
  ret state.

Definition RK4 (state : PState) (time deltaTime : R)
    (evaluateFunc : FixedEval) : M W PState :=
  k1 <- call (evaluateFunc state time 0 DeltaState.default) ;;
  k2 <- call (evaluateFunc state time (0.5 * deltaTime) k1) ;;
  k3 <- call (evaluateFunc state time (0.5 * deltaTime) k2) ;;
  k4 <- call (evaluateFunc state time deltaTime k3) ;;
  let state := ParticleState.set_pos
    (ParticleState.pos state
     + deltaTime / 6.0
       * (DeltaState.vel k1
          + 2 * (DeltaState.vel k2 + DeltaState.vel k3)
          + DeltaState.vel k4))
    state in
  let state := ParticleState.set_vel
    (ParticleState.vel state
     + deltaTime / 6.0
       * (DeltaState.accel k1
          + 2 * (DeltaState.accel k2 + DeltaState.accel k3)
          + DeltaState.accel k4))
    state in
  ret state.

(** The body of the first loop: [ks[i] = evaluateFunc(state, time,
    deltaTime, ks, tableau, i);] *)
Definition stage_body (state : PState) (time deltaTime : R)
    (tableau : Tableau) (evaluateFunc : GenericEval)
    (i : nat) (ks : list DState) : M W (list DState) :=
  k <- call (evaluateFunc state time deltaTime ks tableau (Z.of_nat i)) ;;
  vec_set ks i k.

(** The body of the second loop:
    [deltaPos += tableau.b[i] * ks[i].vel;
     deltaVel += tableau.b[i] * ks[i].accel;] *)
Definition sum_body (tableau : Tableau) (ks : list DState)
    (i : nat) (acc : R * R) : M W (R * R) :=
  let '(deltaPos, deltaVel) := acc in
  bi <- vec_get (ButcherTableau.b tableau) i ;;
  ki <- vec_get ks i ;;
  let deltaPos := deltaPos + bi * DeltaState.vel ki in
  bi <- vec_get (ButcherTableau.b tableau) i ;;
  ki <- vec_get ks i ;;
  let deltaVel := deltaVel + bi * DeltaState.accel ki in
  ret (deltaPos, deltaVel).

Definition ExplicitRungeKutta (state : PState) (time deltaTime : R)
    (tableau : Tableau) (evaluateFunc : GenericEval) : M W PState :=
  let ks := replicate (length (ButcherTableau.b tableau)) DeltaState.default in
  ks <- for_loop (length ks) 0
          (stage_body state time deltaTime tableau evaluateFunc) ks ;;
  delta <- for_loop (length (ButcherTableau.b tableau)) 0
             (sum_body tableau ks) (0, 0) ;;
  let '(deltaPos, deltaVel) := delta in
  let state := ParticleState.set_pos
    (ParticleState.pos state + deltaTime * deltaPos) state in
  let state := ParticleState.set_vel
    (ParticleState.vel state + deltaTime * deltaVel) state in
  ret state.

End Steppers.

Arguments FixedEval : clear implicits.
Arguments GenericEval : clear implicits.

(** ** Evaluators without effects, and evaluators that record their calls *)

(** One call of a fixed-stage evaluator, by its four arguments. *)
Module FixedCall.
Record t (X : Type) : Type :=
  mk { state : ParticleState.t X; time : R; offset : R;
       previous : DeltaState.t }.
Arguments mk {X} _ _ _ _.
Arguments state {X} _.
Arguments time {X} _.
Arguments offset {X} _.
Arguments previous {X} _.
End FixedCall.

(** One call of a generic evaluator, by its six arguments. *)
Module GenericCall.
Record t (X : Type) : Type :=
  mk { state : ParticleState.t X; time : R; deltaTime : R;
       stages : list DeltaState.t; tableau : ButcherTableau.t; index : Z }.
Arguments mk {X} _ _ _ _ _ _.
Arguments state {X} _.
Arguments time {X} _.
Arguments deltaTime {X} _.
Arguments stages {X} _.
Arguments tableau {X} _.
Arguments index {X} _.
End GenericCall.

Section Evaluators.
Context {X : Type}.

(** An evaluator that is a function of its arguments alone. *)
Definition PureFixed : Type :=
  ParticleState.t X -> R -> R -> DeltaState.t -> DeltaState.t.

Definition PureGeneric : Type :=
  ParticleState.t X -> R -> R -> list DeltaState.t -> ButcherTableau.t -> Z ->
  DeltaState.t.

(** It leaves every world as it is. *)
Definition pure_fixed {W} (f : PureFixed) : FixedEval X W :=
  fun state time offset previous w => (f state time offset previous, w).

Definition pure_generic {W} (g : PureGeneric) : GenericEval X W :=
  fun state time deltaTime ks tableau i w =>
    (g state time deltaTime ks tableau i, w).

(** The same evaluator, appending each call it receives to a log. *)
Definition logged_fixed (f : PureFixed) : FixedEval X (list (FixedCall.t X)) :=
  fun state time offset previous log =>
    (f state time offset previous,
     log ++ [FixedCall.mk state time offset previous]).

Definition logged_generic (g : PureGeneric)
  : GenericEval X (list (GenericCall.t X)) :=
  fun state time deltaTime ks tableau i log =>
    (g state time deltaTime ks tableau i,
     log ++ [GenericCall.mk state time deltaTime ks tableau i]).

End Evaluators.

Arguments PureFixed : clear implicits.
Arguments PureGeneric : clear implicits.

(** An evaluator whose answer depends on its time-offset argument:
    [vel] is the offset it was given. *)
Definition offset_probe : PureFixed unit :=
  fun _ _ offset _ => DeltaState.mk offset 0.

(** ** The generic stepper, stage by stage

    What the description of [ExplicitRungeKutta] says it computes, for an
    evaluator [g] without effects: the stage vector after the first [n]
    stages, and the weighted sums of the final update. *)

Section Stages.
Context {X : Type}.
Variables (g : PureGeneric X) (state : ParticleState.t X).
Variables (time deltaTime : R) (tableau : ButcherTableau.t).

(** [ks] once stages [0 .. n-1] have been assigned, in increasing order:
    it starts as [s] default entries, and stage [i] is
    [evaluateFunc(state, time, deltaTime, ks, tableau, i)] for the [ks]
    holding the stages before it. *)
Fixpoint stages_after (n : nat) : list DeltaState.t :=
  match n with
  | O => replicate (length (ButcherTableau.b tableau)) DeltaState.default
  | S i =>
      <[i := g state time deltaTime (stages_after i) tableau (Z.of_nat i)]>
        (stages_after i)
  end.

(** The call that computes stage [i]. *)
Definition stage_call (i : nat) : GenericCall.t X :=
  GenericCall.mk state time deltaTime (stages_after i) tableau (Z.of_nat i).

End Stages.

(** [acc + w i0 + w (i0+1) + ... + w (i0+n-1)], added in this order. *)
Definition sum_from (acc : R) (i0 n : nat) (w : nat -> R) : R :=
  fold_left (fun acc i => acc + w i) (seq i0 n) acc.

(** The term [b[i] * proj ks[i]] of the final sums. *)
Definition weight (b : list R) (ks : list DeltaState.t)
    (proj : DeltaState.t -> R) (i : nat) : R :=
  nth i b 0 * proj (nth i ks DeltaState.default).

(** The sum over [i = 0 .. s-1] of [b[i] * proj ks[i]], in this order. *)
Definition weighted_sum (b : list R) (ks : list DeltaState.t)
    (proj : DeltaState.t -> R) : R :=
  sum_from 0 0 (length b) (weight b ks proj).

(** ** The steppers as a family *)

(** The four steppers that share the fixed-stage signature. *)
Inductive FixedStepper : Type :=
  | EulerStepper | MidPointStepper | RalstonStepper | RK4Stepper.

Definition run_fixed {X W} (s : FixedStepper)
  : ParticleState.t X -> R -> R -> FixedEval X W -> M W (ParticleState.t X) :=
  match s with
  | EulerStepper => Euler
  | MidPointStepper => MidPoint
  | RalstonStepper => Ralston
  | RK4Stepper => RK4
  end.

(** [n] successive steps of a fixed-stage stepper, each starting where the
    one before ended, [deltaTime] later. *)
Fixpoint steps {X W} (n : nat) (s : FixedStepper) (state : ParticleState.t X)
    (time deltaTime : R) (ev : FixedEval X W) : M W (ParticleState.t X) :=
  match n with
  | O => ret state
  | S n' =>
      state' <- run_fixed s state time deltaTime ev ;;
      steps n' s state' (time + deltaTime) deltaTime ev
  end.

(** ** Scaled evaluators *)

(** A [DeltaState] with [vel] and [accel] multiplied by [k]. *)
Definition scale (k : R) (d : DeltaState.t) : DeltaState.t :=
  DeltaState.mk (k * DeltaState.vel d) (k * DeltaState.accel d).

(** [f'] returns [k] times what [f] returns, when [f'] is handed the stage
    input of the scaled run and [f] that of the baseline. *)
Definition scaled_fixed {X} (k : R) (f f' : PureFixed X) : Prop :=
  forall state time offset previous,
    f' state time offset (scale k previous)
    = scale k (f state time offset previous).

Definition scaled_generic {X} (k : R) (g g' : PureGeneric X) : Prop :=
  forall state time deltaTime ks tableau i,
    g' state time deltaTime (scale k <$> ks) tableau i
    = scale k (g state time deltaTime ks tableau i).

(** ** Ralston's method as a tableau *)

(** [c = [0, 2/3]], [b = [1/4, 3/4]], [a = [[0, 0], [2/3, 0]]]. *)
Definition ralston_tableau : ButcherTableau.t :=
  ButcherTableau.mk [[0; 0]; [2 / 3; 0]] [1 / 4; 3 / 4] [0; 2 / 3].

(** The generic evaluator that computes, for stage [i], what the fixed-stage
    evaluator [f] computes from row [a[i]] and the stages before [i]: stage 0
    has no earlier stage and is evaluated at offset 0 with the zero
    placeholder; stage [i > 0] is evaluated at offset [a[i][i-1] * deltaTime]
    with the stage before it. *)
Definition generic_of_fixed {X} (f : PureFixed X) : PureGeneric X :=
  fun state time deltaTime ks tableau i =>
    match Z.to_nat i with
    | O => f state time 0 DeltaState.default
    | S j =>
        f state time
          (nth j (nth (S j) (ButcherTableau.a tableau) []) 0 * deltaTime)
          (nth j ks DeltaState.default)
    end.

(** [g] computes for every stage of [tableau] what [f] would compute: the
    two agree at every call the generic stepper can make for [tableau]. *)
Definition honours {X} (tableau : ButcherTableau.t)
    (f : PureFixed X) (g : PureGeneric X) : Prop :=
  forall state time deltaTime ks (i : nat),
    (i < length (ButcherTableau.b tableau))%nat ->
    length ks = length (ButcherTableau.b tableau) ->
    g state time deltaTime ks tableau (Z.of_nat i)
    = generic_of_fixed f state time deltaTime ks tableau (Z.of_nat i).

(** ** Sample evaluators *)

(** [dy/dt = y] for both components, in the shape the steppers expect: the
    derivative is taken at the state moved by [offset] along the previous
    stage, and does not depend on the time. *)
Definition exponential : PureFixed unit :=
  fun state _ offset previous =>
    DeltaState.mk
      (ParticleState.pos state + offset * DeltaState.vel previous)
      (ParticleState.vel state + offset * DeltaState.accel previous).

(** A drive of strength [c] from the current state, plus the previous stage
    weighted by the offset.  Multiplying [c] by [k] multiplies what the
    evaluator returns by [k], once its stage input is multiplied too. *)
Definition feedback (c : R) : PureFixed unit :=
  fun state _ offset previous =>
    DeltaState.mk (c * ParticleState.vel state + offset * DeltaState.vel previous)
                  (offset * DeltaState.accel previous - c * ParticleState.pos state).

Definition particle (p v : R) : ParticleState.t unit := ParticleState.mk p v tt.

(** ** Further tableaux and evaluators *)

(** The classical fourth-order method: [c = [0, 1/2, 1/2, 1]],
    [b = [1/6, 1/3, 1/3, 1/6]], and [a] with 1/2, 1/2, 1 below the
    diagonal. *)
Definition rk4_tableau : ButcherTableau.t :=
  ButcherTableau.mk
    [[0; 0; 0; 0]; [1 / 2; 0; 0; 0]; [0; 1 / 2; 0; 0]; [0; 0; 1; 0]]
    [1 / 6; 1 / 3; 1 / 3; 1 / 6]
    [0; 1 / 2; 1 / 2; 1].

(** A generic evaluator that hands its first three arguments on to a
    fixed-stage evaluator, with the zero placeholder. *)
Definition forwarding {X W} (ev : FixedEval X W) : GenericEval X W :=
  fun state time deltaTime _ _ _ => ev state time deltaTime DeltaState.default.

(** The evaluator does not look at the tableau. *)
Definition tableau_blind {X W} (ev : GenericEval X W) : Prop :=
  forall state time deltaTime ks tableau tableau' i w,
    ev state time deltaTime ks tableau i w
    = ev state time deltaTime ks tableau' i w.

(** A constant rate of change: every call returns [k]. *)
Definition constant_fixed {X W} (k : DeltaState.t) (ev : FixedEval X W) : Prop :=
  forall state time offset previous w,
    fst (ev state time offset previous w) = k.

Definition constant_generic {X} (k : DeltaState.t) (g : PureGeneric X) : Prop :=
  forall state time deltaTime ks tableau i,
    g state time deltaTime ks tableau i = k.

(** [b[0] + b[1] + ...]. *)
Definition total (b : list R) : R := fold_right Rplus 0 b.

(** The sum of two rates of change. *)
Definition plus (d d' : DeltaState.t) : DeltaState.t :=
  DeltaState.mk (DeltaState.vel d + DeltaState.vel d')
                (DeltaState.accel d + DeltaState.accel d').

(** [f''] is the superposition of [f] and [f']: handed the sum of their stage
    inputs it returns the sum of their answers. *)
Definition superposed_fixed {X} (f f' f'' : PureFixed X) : Prop :=
  forall state time offset previous previous',
    f'' state time offset (plus previous previous')
    = plus (f state time offset previous) (f' state time offset previous').

Definition superposed_generic {X} (g g' g'' : PureGeneric X) : Prop :=
  forall state time deltaTime ks ks' tableau i,
    length ks = length ks' ->
    g'' state time deltaTime (zip_with plus ks ks') tableau i
    = plus (g state time deltaTime ks tableau i)
           (g' state time deltaTime ks' tableau i).

(** The linear test equation [dy/dt = y] for both components: the evaluator
    returns the state moved by [offset] along the previous stage. *)
Definition linear_test {X W} (ev : FixedEval X W) : Prop :=
  forall state time offset previous w,
    fst (ev state time offset previous w)
    = DeltaState.mk
        (ParticleState.pos state + offset * DeltaState.vel previous)
        (ParticleState.vel state + offset * DeltaState.accel previous).

(** A constant pull: every call returns velocity [v] and acceleration [a]. *)
Definition uniform (v a : R) : PureFixed unit :=
  fun _ _ _ _ => DeltaState.mk v a.

(** A generic evaluator that reads only the state. *)
Definition drift : PureGeneric unit :=
  fun state _ _ _ _ _ =>
    DeltaState.mk (ParticleState.vel state) (- ParticleState.pos state).

(** ** Counting the calls of any evaluator *)

(** The evaluator [ev], with a counter of its calls beside its world. *)
Definition counting_fixed {X W} (ev : FixedEval X W) : FixedEval X (W * nat) :=
  fun state time offset previous wn =>
    let '(k, w') := ev state time offset previous (fst wn) in
    (k, (w', S (snd wn))).

Definition counting_generic {X W} (ev : GenericEval X W)
  : GenericEval X (W * nat) :=
  fun state time deltaTime ks tableau i wn =>
    let '(k, w') := ev state time deltaTime ks tableau i (fst wn) in
    (k, (w', S (snd wn))).

(** The evaluator calls one step of a fixed-stage stepper makes. *)
Definition stage_count (s : FixedStepper) : nat :=
  match s with
  | EulerStepper | MidPointStepper => 1
  | RalstonStepper => 2
  | RK4Stepper => 4
  end.

(** ** The steppers over IEEE 754 doubles

    The same five functions, read off [integrate.cpp] once more, with
    [double] as the binary64 floating-point numbers of the kernel: every
    operation is rounded to nearest (ties to even), sums and products can
    overflow to an infinity, and [0 * inf] is NaN.  (No operation is fused
    and none is carried out in a wider format.)  Effects and vectors are
    modelled as before. *)

Module Binary64.
Import PrimFloat.
#[local] Set Warnings "-inexact-float".
Local Open Scope float_scope.

(** Modelled from the spec: [data.hpp] is not among the sources.  The
    value-initialised [DeltaState()] is all-zero. *)
Module DeltaState.
Record t : Type := mk { vel : float; accel : float }.
Definition default : t := mk 0 0.
End DeltaState.

(** Modelled from the spec: [data.hpp] is not among the sources.  [other]
    stands for whatever further members the struct declares. *)
Module ParticleState.
Record t (X : Type) : Type := mk { pos : float; vel : float; other : X }.
Arguments mk {X} _ _ _.
Arguments pos {X} _.
Arguments vel {X} _.
Arguments other {X} _.
Definition set_pos {X} (p : float) (s : t X) : t X := mk p (vel s) (other s).
Definition set_vel {X} (v : float) (s : t X) : t X := mk (pos s) v (other s).
End ParticleState.

(** Modelled from the spec: [data.hpp] is not among the sources. *)
Module ButcherTableau.
Record t : Type := mk { a : list (list float); b : list float; c : list float }.
End ButcherTableau.

Definition FixedEval (X W : Type) : Type :=
  ParticleState.t X -> float -> float -> DeltaState.t -> W -> DeltaState.t * W.

Definition GenericEval (X W : Type) : Type :=
  ParticleState.t X -> float -> float -> list DeltaState.t ->
  ButcherTableau.t -> Z -> W -> DeltaState.t * W.

Definition Euler {X W} (state : ParticleState.t X) (time deltaTime : float)
    (evaluateFunc : FixedEval X W) : M W (ParticleState.t X) :=
  k1 <- call (evaluateFunc state time deltaTime DeltaState.default) ;;
  let state := ParticleState.set_pos
    (ParticleState.pos state + deltaTime * DeltaState.vel k1) state in
  let state := ParticleState.set_vel
    (ParticleState.vel state + deltaTime * DeltaState.accel k1) state in
  ret state.

Definition MidPoint {X W} (state : ParticleState.t X) (time deltaTime : float)
    (evaluateFunc : FixedEval X W) : M W (ParticleState.t X) :=
  k1 <- call (evaluateFunc state time (0.5 * deltaTime) DeltaState.default) ;;
  let state := ParticleState.set_pos
    (ParticleState.pos state
     + deltaTime * (DeltaState.vel k1 + (deltaTime / 2) * DeltaState.vel k1))
    state in
  let state := ParticleState.set_vel
    (ParticleState.vel state + deltaTime * (DeltaState.accel k1 * 1.5))
    state in
  ret state.

Definition Ralston {X W} (state : ParticleState.t X) (time deltaTime : float)
    (evaluateFunc : FixedEval X W) : M W (ParticleState.t X) :=
  k1 <- call (evaluateFunc state time 0 DeltaState.default) ;;
  k2 <- call (evaluateFunc state time ((2.0 / 3.0) * deltaTime) k1) ;;
  let state := ParticleState.set_pos
    (ParticleState.pos state
     + deltaTime * (0.25 * DeltaState.vel k1 + 0.75 * DeltaState.vel k2))
    state in
  let state := ParticleState.set_vel
    (ParticleState.vel state
     + deltaTime * (0.25 * DeltaState.accel k1 + 0.75 * DeltaState.accel k2))
    state in
  ret state.

Definition RK4 {X W} (state : ParticleState.t X) (time deltaTime : float)
    (evaluateFunc : FixedEval X W) : M W (ParticleState.t X) :=
  k1 <- call (evaluateFunc state time 0 DeltaState.default) ;;
  k2 <- call (evaluateFunc state time (0.5 * deltaTime) k1) ;;
  k3 <- call (evaluateFunc state time (0.5 * deltaTime) k2) ;;
  k4 <- call (evaluateFunc state time deltaTime k3) ;;
  let state := ParticleState.set_pos
    (ParticleState.pos state
     + deltaTime / 6.0
       * (DeltaState.vel k1
          + 2 * (DeltaState.vel k2 + DeltaState.vel k3)
          + DeltaState.vel k4))
    state in
  let state := ParticleState.set_vel
    (ParticleState.vel state
     + deltaTime / 6.0
       * (DeltaState.accel k1
          + 2 * (DeltaState.accel k2 + DeltaState.accel k3)
          + DeltaState.accel k4))
    state in
  ret state.

Definition stage_body {X W} (state : ParticleState.t X)
    (time deltaTime : float) (tableau : ButcherTableau.t)
    (evaluateFunc : GenericEval X W)
    (i : nat) (ks : list DeltaState.t) : M W (list DeltaState.t) :=
  k <- call (evaluateFunc state time deltaTime ks tableau (Z.of_nat i)) ;;
  vec_set ks i k.

Definition sum_body {W} (tableau : ButcherTableau.t) (ks : list DeltaState.t)
    (i : nat) (acc : float * float) : M W (float * float) :=
  let '(deltaPos, deltaVel) := acc in
  bi <- vec_get (ButcherTableau.b tableau) i ;;
  ki <- vec_get ks i ;;
  let deltaPos := deltaPos + bi * DeltaState.vel ki in
  bi <- vec_get (ButcherTableau.b tableau) i ;;
  ki <- vec_get ks i ;;
  let deltaVel := deltaVel + bi * DeltaState.accel ki in
  ret (deltaPos, deltaVel).

Definition ExplicitRungeKutta {X W} (state : ParticleState.t X)
    (time deltaTime : float) (tableau : ButcherTableau.t)
    (evaluateFunc : GenericEval X W) : M W (ParticleState.t X) :=
  let ks := replicate (length (ButcherTableau.b tableau)) DeltaState.default in
  ks <- for_loop (length ks) 0
          (stage_body state time deltaTime tableau evaluateFunc) ks ;;
  delta <- for_loop (length (ButcherTableau.b tableau)) 0
             (sum_body tableau ks) (0, 0) ;;
  let '(deltaPos, deltaVel) := delta in
  let state := ParticleState.set_pos
    (ParticleState.pos state + deltaTime * deltaPos) state in
  let state := ParticleState.set_vel
    (ParticleState.vel state + deltaTime * deltaVel) state in
  ret state.

Definition run_fixed {X W} (s : FixedStepper)
  : ParticleState.t X -> float -> float -> FixedEval X W ->
    M W (ParticleState.t X) :=
  match s with
  | EulerStepper => Euler
  | MidPointStepper => MidPoint
  | RalstonStepper => Ralston
  | RK4Stepper => RK4
  end.


(** An evaluator that returns the same finite rates at every call. *)
Definition steady (v a : float) : FixedEval unit unit :=
  fun _ _ _ _ w => (DeltaState.mk v a, w).


(** The same rates, each multiplied by [k]. *)
Definition steady_scaled (k v a : float) : FixedEval unit unit :=
  fun _ _ _ _ w => (DeltaState.mk (k * v) (k * a), w).

Definition particle (p v : float) : ParticleState.t unit :=
  ParticleState.mk p v tt.

(** [dy/dt = y] for both components: the rate of change at the state moved
    by [offset] along the previous stage. *)
Definition exponential : FixedEval unit unit :=
  fun state _ offset previous w =>
    (DeltaState.mk
       (ParticleState.pos state + offset * DeltaState.vel previous)
       (ParticleState.vel state + offset * DeltaState.accel previous), w).

(** The positions after each of [n] successive steps, every step starting
    where the one before ended, [deltaTime] later. *)
Fixpoint trajectory {X W} (n : nat) (s : FixedStepper)
    (state : ParticleState.t X) (time deltaTime : float)
    (ev : FixedEval X W) (w : W) : list float :=
  match n with
  | O => []
  | S n' =>
      match run_fixed s state time deltaTime ev w with
      | Some (state', w') =>
          ParticleState.pos state'
          :: trajectory n' s state' (time + deltaTime) deltaTime ev w'
      | None => []
      end
  end.

(** [x] and [y] differ by less than [tolerance]. *)
Definition near (tolerance x y : float) : bool := abs (x - y) <? tolerance.

(** The column [y1 .. y8] of the table in the comment above [Euler], and
    that of the table in the comment above [MidPoint] (whose fourth row
    writes 4.3910 for the 4.2910 of its third). *)
Definition Euler_table : list float :=
  [1.5; 2.25; 3.375; 5.0625; 7.5938; 11.3906; 17.0859; 25.6289].

Definition MidPoint_table : list float :=
  [1.625; 2.6406; 4.2910; 6.9729; 11.3310; 18.4128; 29.9208; 48.6213].

(** The time offset of the first evaluator call of a fixed-stage stepper. *)
Definition first_offset (s : FixedStepper) (deltaTime : float) : float :=
  match s with
  | EulerStepper => deltaTime
  | MidPointStepper => 0.5 * deltaTime
  | RalstonStepper | RK4Stepper => 0
  end.

End Binary64.

(** * Properties *)

Ltac run :=
  unfold Euler, MidPoint, Ralston, RK4, bind, call, ret,
    logged_fixed, pure_fixed, ParticleState.set_pos, ParticleState.set_vel;
  cbn [app fst snd ParticleState.pos ParticleState.vel ParticleState.other].

Ltac same_state := f_equal; f_equal; f_equal; lra.

Ltac eval_calls :=
  repeat match goal with
  | |- context [?ev ?s ?t ?o ?p ?w] =>
      match type of (ev s t o p w) with
      | (DeltaState.t * _)%type =>
          let k := fresh "k" in
          let w' := fresh "w" in
          destruct (ev s t o p w) as [k w']
      end
  end.

Section FixedSteppers.
Context {X : Type}.
Implicit Types (f : PureFixed X) (state : ParticleState.t X).
Implicit Types (time deltaTime : R).

(** C2: RK4 makes four evaluator calls, [k1] at offset 0 with the zero
    placeholder, [k2] and [k3] at offset [h/2] with the previous stage,
    [k4] at offset [h] with [k3], in this order, and then adds
    [(h/6)*(k1 + 2*(k2 + k3) + k4)] to [pos] (velocities) and to [vel]
    (accelerations). *)
Theorem RK4_calls_and_update f state time deltaTime :
  let h := deltaTime in
  let k1 := f state time 0 DeltaState.default in
  let k2 := f state time (h / 2) k1 in
  let k3 := f state time (h / 2) k2 in
  let k4 := f state time h k3 in
  RK4 state time h (logged_fixed f) [] =
    Some (ParticleState.mk
            (ParticleState.pos state
             + (h / 6) * (DeltaState.vel k1
                          + 2 * (DeltaState.vel k2 + DeltaState.vel k3)
                          + DeltaState.vel k4))
            (ParticleState.vel state
             + (h / 6) * (DeltaState.accel k1
                          + 2 * (DeltaState.accel k2 + DeltaState.accel k3)
                          + DeltaState.accel k4))
            (ParticleState.other state),
          [ FixedCall.mk state time 0 DeltaState.default;
            FixedCall.mk state time (h / 2) k1;
            FixedCall.mk state time (h / 2) k2;
            FixedCall.mk state time h k3 ]).
Proof.
  intros h k1 k2 k3 k4. subst h k1 k2 k3 k4. run.
  replace (0.5 * deltaTime) with (deltaTime / 2) by lra.
  replace (deltaTime / 6.0) with (deltaTime / 6) by lra.
  reflexivity.
Qed.

(** C3: MidPoint makes one evaluator call, at offset [h/2] with the zero
    placeholder, and then adds [h*(k1.vel + (h/2)*k1.vel)] to [pos] and
    [h*(1.5*k1.accel)] to [vel]. *)
Theorem MidPoint_calls_and_update f state time deltaTime :
  let h := deltaTime in
  let k1 := f state time (h / 2) DeltaState.default in
  MidPoint state time h (logged_fixed f) [] =
    Some (ParticleState.mk
            (ParticleState.pos state
             + h * (DeltaState.vel k1 + (h / 2) * DeltaState.vel k1))
            (ParticleState.vel state + h * (1.5 * DeltaState.accel k1))
            (ParticleState.other state),
          [ FixedCall.mk state time (h / 2) DeltaState.default ]).
Proof.
  intros h k1. subst h k1. run.
  replace (0.5 * deltaTime) with (deltaTime / 2) by lra.
  same_state.
Qed.

(** [Ralston] makes two evaluator calls, [k1] at offset 0 with the zero
    placeholder and [k2] at offset [(2/3)*h] with [k1], and then adds
    [h*(k1/4 + 3*k2/4)] to [pos] (velocities) and to [vel] (accelerations). *)
Lemma Ralston_calls_and_update f state time deltaTime :
  let h := deltaTime in
  let k1 := f state time 0 DeltaState.default in
  let k2 := f state time (2 / 3 * h) k1 in
  Ralston state time h (logged_fixed f) [] =
    Some (ParticleState.mk
            (ParticleState.pos state
             + h * (DeltaState.vel k1 / 4 + 3 * DeltaState.vel k2 / 4))
            (ParticleState.vel state
             + h * (DeltaState.accel k1 / 4 + 3 * DeltaState.accel k2 / 4))
            (ParticleState.other state),
          [ FixedCall.mk state time 0 DeltaState.default;
            FixedCall.mk state time (2 / 3 * h) k1 ]).
Proof.
  intros h k1 k2. subst h k1 k2. run.
  replace (2.0 / 3.0 * deltaTime) with (2 / 3 * deltaTime) by lra.
  same_state.
Qed.

End FixedSteppers.

(** ** The two loops of [ExplicitRungeKutta] *)

Lemma sum_from_step acc i0 n w :
  sum_from acc i0 (S n) w = sum_from (acc + w i0) (S i0) n w.
Proof. reflexivity. Qed.

Section SumLoop.
Context {W : Type}.
Variables (tableau : ButcherTableau.t) (ks : list DeltaState.t).

(** The second loop never reads out of range, leaves the world alone and
    accumulates the two sums from left to right. *)
Lemma sum_loop_spec n i dP dV (w : W) :
  (i + n <= length (ButcherTableau.b tableau))%nat ->
  (i + n <= length ks)%nat ->
  for_loop n i (sum_body tableau ks) (dP, dV) w =
    Some ((sum_from dP i n (weight (ButcherTableau.b tableau) ks DeltaState.vel),
           sum_from dV i n (weight (ButcherTableau.b tableau) ks DeltaState.accel)),
          w).
Proof.
  revert i dP dV. induction n as [|n IH]; intros i dP dV Hb Hk.
  - reflexivity.
  - destruct (lookup_lt_is_Some_2 (ButcherTableau.b tableau) i) as [bi Hbi];
      [lia|].
    destruct (lookup_lt_is_Some_2 ks i) as [ki Hki]; [lia|].
    cbn [for_loop]. unfold bind at 1, sum_body, vec_get.
    rewrite Hbi, Hki. unfold bind, ret.
    rewrite IH by lia. rewrite !sum_from_step. unfold weight.
    rewrite (nth_lookup_Some _ _ 0 _ Hbi).
    rewrite (nth_lookup_Some _ _ DeltaState.default _ Hki).
    reflexivity.
Qed.

End SumLoop.

Section StageLoop.
Context {X W : Type}.
Variables (state : ParticleState.t X) (time deltaTime : R).
Variables (tableau : ButcherTableau.t).

(** Whatever the evaluator does to the world, the first loop assigns within
    the vector and keeps its size. *)
Lemma stage_loop_defined (ev : GenericEval X W) n i ks w :
  (i + n <= length ks)%nat ->
  exists ks' w',
    for_loop n i (stage_body state time deltaTime tableau ev) ks w
      = Some (ks', w')
    /\ length ks' = length ks.
Proof.
  revert i ks w. induction n as [|n IH]; intros i ks w Hlen.
  - exists ks, w. split; reflexivity.
  - cbn [for_loop]. unfold bind at 1, stage_body, bind, call, vec_set.
    destruct (ev state time deltaTime ks tableau (Z.of_nat i) w) as [k w1].
    destruct (decide (i < length ks)%nat) as [_|Hge]; [|lia].
    destruct (IH (S i) (<[i := k]> ks) w1) as (ks' & w' & Hrun & Hlen').
    { rewrite length_insert. lia. }
    exists ks', w'. unfold ret. split; [exact Hrun|].
    rewrite Hlen'. apply length_insert.
Qed.

Variables (g : PureGeneric X) (note : GenericCall.t X -> W -> W).
Variable ev : GenericEval X W.
Hypothesis ev_spec : forall st t h ks tab i w,
  ev st t h ks tab i w = (g st t h ks tab i, note (GenericCall.mk st t h ks tab i) w).

Lemma length_stages_after n :
  length (stages_after g state time deltaTime tableau n)
  = length (ButcherTableau.b tableau).
Proof.
  induction n as [|n IH]; cbn [stages_after].
  - apply length_replicate.
  - rewrite length_insert. exact IH.
Qed.

(** An evaluator that answers as [g] does drives the first loop through the
    stage vectors [stages_after], one call per stage, in increasing order. *)
Lemma stage_loop_spec n i w :
  (i + n <= length (ButcherTableau.b tableau))%nat ->
  for_loop n i (stage_body state time deltaTime tableau ev)
    (stages_after g state time deltaTime tableau i) w
  = Some (stages_after g state time deltaTime tableau (i + n),
          fold_left (fun w c => note c w)
            (map (stage_call g state time deltaTime tableau) (seq i n)) w).
Proof.
  revert i w. induction n as [|n IH]; intros i w Hlen.
  - rewrite Nat.add_0_r. reflexivity.
  - cbn [for_loop]. unfold bind at 1, stage_body, bind, call, vec_set.
    rewrite ev_spec.
    destruct (decide _) as [_|Hge];
      [|rewrite length_stages_after in Hge; lia].
    unfold ret.
    change (<[i := _]> (stages_after g state time deltaTime tableau i))
      with (stages_after g state time deltaTime tableau (S i)).
    rewrite IH by lia. rewrite Nat.add_succ_r. reflexivity.
Qed.

Lemma ExplicitRungeKutta_spec w :
  let s := length (ButcherTableau.b tableau) in
  let ks := stages_after g state time deltaTime tableau s in
  ExplicitRungeKutta state time deltaTime tableau ev w =
    Some (ParticleState.mk
            (ParticleState.pos state
             + deltaTime * weighted_sum (ButcherTableau.b tableau) ks DeltaState.vel)
            (ParticleState.vel state
             + deltaTime * weighted_sum (ButcherTableau.b tableau) ks DeltaState.accel)
            (ParticleState.other state),
          fold_left (fun w c => note c w)
            (map (stage_call g state time deltaTime tableau) (seq 0 s)) w).
Proof.
  intros s ks. unfold ExplicitRungeKutta.
  rewrite length_replicate. unfold bind at 1.
  change (replicate _ _) with (stages_after g state time deltaTime tableau 0).
  rewrite stage_loop_spec by (cbn; lia). cbn [Nat.add]. fold s ks.
  unfold bind. rewrite sum_loop_spec;
    [|cbn; lia | unfold ks; rewrite length_stages_after; cbn; lia].
  reflexivity.
Qed.

End StageLoop.

Lemma log_fold {A} (cs log : list A) :
  fold_left (fun w c => w ++ [c]) cs log = log ++ cs.
Proof.
  revert log. induction cs as [|c cs IH]; intros log; cbn [fold_left].
  - symmetry. apply app_nil_r.
  - rewrite IH, <- app_assoc. reflexivity.
Qed.

Section GenericStepper.
Context {X : Type}.
Implicit Types (g : PureGeneric X) (state : ParticleState.t X).
Implicit Types (time deltaTime : R) (tableau : ButcherTableau.t).

(** Before stage [i] is computed, [ks] holds the results of the calls for
    stages [0 .. i-1] at their places. *)
Lemma stages_after_earlier g state time deltaTime tableau i j :
  (j < i <= length (ButcherTableau.b tableau))%nat ->
  stages_after g state time deltaTime tableau i !! j
  = Some (g state time deltaTime
            (stages_after g state time deltaTime tableau j) tableau (Z.of_nat j)).
Proof.
  induction i as [|i IH]; intros Hij; [lia|]. cbn [stages_after].
  destruct (decide (j = i)) as [->|Hne].
  - apply list_lookup_insert_eq.
    rewrite length_stages_after. lia.
  - rewrite list_lookup_insert_ne by congruence. apply IH. lia.
Qed.

(** ... and default entries from place [i] on. *)
Lemma stages_after_later g state time deltaTime tableau i j :
  (i <= j < length (ButcherTableau.b tableau))%nat ->
  stages_after g state time deltaTime tableau i !! j = Some DeltaState.default.
Proof.
  induction i as [|i IH]; intros Hij; cbn [stages_after].
  - apply lookup_replicate_2. lia.
  - rewrite list_lookup_insert_ne by lia. apply IH. lia.
Qed.

(** C1: with [s = tableau.b.size()], [ExplicitRungeKutta] calls the evaluator
    once per stage, for [i = 0 .. s-1] in increasing order, each time with the
    [ks] in which the stages before [i] are present (and the others still
    default); afterwards it adds [deltaTime] times the sums of
    [b[i] * ks[i].vel] and of [b[i] * ks[i].accel], taken in the order
    [i = 0 .. s-1], to [pos] and to [vel]. *)
Theorem ExplicitRungeKutta_stages_in_order g state time deltaTime tableau :
  let s := length (ButcherTableau.b tableau) in
  let ks := stages_after g state time deltaTime tableau in
  ExplicitRungeKutta state time deltaTime tableau (logged_generic g) [] =
    Some (ParticleState.mk
            (ParticleState.pos state
             + deltaTime
               * weighted_sum (ButcherTableau.b tableau) (ks s) DeltaState.vel)
            (ParticleState.vel state
             + deltaTime
               * weighted_sum (ButcherTableau.b tableau) (ks s) DeltaState.accel)
            (ParticleState.other state),
          map (fun i =>
                 GenericCall.mk state time deltaTime (ks i) tableau (Z.of_nat i))
              (seq 0 s))
  /\ (forall i j, (j < i <= s)%nat ->
        ks i !! j
        = Some (g state time deltaTime (ks j) tableau (Z.of_nat j)))
  /\ (forall i j, (i <= j < s)%nat -> ks i !! j = Some DeltaState.default)
  /\ (forall i, length (ks i) = s).
Proof.
  intros s ks. repeat split.
  - rewrite (ExplicitRungeKutta_spec state time deltaTime tableau g
               (fun c w => w ++ [c])) by reflexivity.
    rewrite log_fold. reflexivity.
  - intros i j Hij. apply stages_after_earlier. exact Hij.
  - intros i j Hij. apply stages_after_later. exact Hij.
  - intros i. apply length_stages_after.
Qed.


End GenericStepper.

(** ** One step, for any evaluator *)

Section AnyEvaluator.
Context {X W : Type}.
Implicit Types (state : ParticleState.t X) (time deltaTime : R).
Implicit Types (tableau : ButcherTableau.t) (w : W).

(** A fixed-stage stepper always returns: the state it returns is the old
    one with some increments, [deltaTime] times a factor, added to [pos] and
    to [vel]. *)
Lemma run_fixed_defined (s : FixedStepper) (ev : FixedEval X W)
    state time deltaTime w :
  exists dP dV w',
    run_fixed s state time deltaTime ev w
    = Some (ParticleState.mk
              (ParticleState.pos state + deltaTime * dP)
              (ParticleState.vel state + deltaTime * dV)
              (ParticleState.other state), w').
Proof.
  destruct s; cbn [run_fixed]; run; eval_calls.
  - eexists _, _, _. reflexivity.
  - eexists _, _, _. reflexivity.
  - eexists _, _, _. reflexivity.
  - lazymatch goal with
    | |- exists _ _ _,
           Some (ParticleState.mk (_ + _ * ?a) (_ + _ * ?b) _, ?w0) = _ =>
        exists (a / 6), (b / 6), w0
    end.
    same_state.
Qed.

(** So does the generic stepper: no vector is read or written out of range,
    whatever the sizes of [a], [b] and [c]. *)
Lemma ExplicitRungeKutta_defined (ev : GenericEval X W)
    state time deltaTime tableau w :
  exists dP dV w',
    ExplicitRungeKutta state time deltaTime tableau ev w
    = Some (ParticleState.mk
              (ParticleState.pos state + deltaTime * dP)
              (ParticleState.vel state + deltaTime * dV)
              (ParticleState.other state), w').
Proof.
  unfold ExplicitRungeKutta.
  set (ks0 := replicate _ DeltaState.default).
  destruct (stage_loop_defined state time deltaTime tableau ev
              (length ks0) 0 ks0 w) as (ks & w' & Hrun & Hlen); [cbn; lia|].
  unfold bind at 1. rewrite Hrun.
  unfold bind. rewrite sum_loop_spec;
    [|cbn; lia | rewrite Hlen; unfold ks0; rewrite length_replicate; cbn; lia].
  eexists _, _, _. reflexivity.
Qed.

End AnyEvaluator.

(** ** Euler *)

(** What [Euler] does: one evaluator call, with the zero placeholder and with
    [deltaTime] itself as the time offset; then [pos += h * k1.vel] and
    [vel += h * k1.accel]. *)
Lemma Euler_calls_and_update {X} (f : PureFixed X) state time deltaTime :
  let h := deltaTime in
  let k1 := f state time h DeltaState.default in
  Euler state time h (logged_fixed f) [] =
    Some (ParticleState.mk
            (ParticleState.pos state + h * DeltaState.vel k1)
            (ParticleState.vel state + h * DeltaState.accel k1)
            (ParticleState.other state),
          [ FixedCall.mk state time h DeltaState.default ]).
Proof. reflexivity. Qed.

(** C4 fails on the code: for a particle at rest at the origin, [time = 0],
    [deltaTime = 1] and an evaluator whose [vel] is the offset it is given,
    [Euler] calls the evaluator at offset 1 and moves the particle to
    [pos = 1]; a call at offset 0 would have left it at [pos = 0]. *)
Theorem Euler_offset_is_deltaTime :
  let state := particle 0 0 in
  let k1_at_0 := offset_probe state 0 0 DeltaState.default in
  Euler state 0 1 (logged_fixed offset_probe) []
  = Some (particle 1 0, [ FixedCall.mk state 0 1 DeltaState.default ])
  /\ ParticleState.mk
       (ParticleState.pos state + 1 * DeltaState.vel k1_at_0)
       (ParticleState.vel state + 1 * DeltaState.accel k1_at_0) tt
     = particle 0 0
  /\ particle 1 0 <> particle 0 0.
Proof.
  intros state k1_at_0. repeat split.
  - rewrite Euler_calls_and_update. unfold particle, state. cbn. same_state.
  - unfold particle, state, k1_at_0. cbn. f_equal; lra.
  - unfold particle. intros H. injection H as H. lra.
Qed.

(** ** A step of size zero *)


(** ** Totality and frame *)

Lemma fold_left_skip {A B} (cs : list A) (w : B) :
  fold_left (fun w _ => w) cs w = w.
Proof. induction cs as [|c cs IH]; [reflexivity | exact IH]. Qed.

(** C8: every stepper returns for every input (no vector access goes out of
    range, whatever the tableau), and all it changes is [pos] and [vel] of the
    state: the other members come back as they were, the world changes only
    through the evaluator's calls, and each of these calls is handed the
    caller's state, time, step and tableau unchanged. *)
Theorem steppers_total_and_framed {X W} (state : ParticleState.t X)
    (time deltaTime : R) (w : W) :
  (forall (s : FixedStepper) (ev : FixedEval X W),
     exists st' w',
       run_fixed s state time deltaTime ev w = Some (st', w')
       /\ ParticleState.other st' = ParticleState.other state)
  /\ (forall tableau (ev : GenericEval X W),
        exists st' w',
          ExplicitRungeKutta state time deltaTime tableau ev w = Some (st', w')
          /\ ParticleState.other st' = ParticleState.other state)
  /\ (forall (s : FixedStepper) (f : PureFixed X),
        exists st', run_fixed s state time deltaTime (pure_fixed f) w = Some (st', w))
  /\ (forall tableau (g : PureGeneric X),
        exists st',
          ExplicitRungeKutta state time deltaTime tableau (pure_generic g) w
          = Some (st', w))
  /\ (forall (s : FixedStepper) (f : PureFixed X),
        exists st' log,
          run_fixed s state time deltaTime (logged_fixed f) [] = Some (st', log)
          /\ Forall (fun c => FixedCall.state c = state
                              /\ FixedCall.time c = time) log)
  /\ (forall tableau (g : PureGeneric X),
        exists st' log,
          ExplicitRungeKutta state time deltaTime tableau (logged_generic g) []
          = Some (st', log)
          /\ Forall (fun c => GenericCall.state c = state
                              /\ GenericCall.time c = time
                              /\ GenericCall.deltaTime c = deltaTime
                              /\ GenericCall.tableau c = tableau) log).
Proof.
  repeat apply conj.
  - intros s ev.
    destruct (run_fixed_defined s ev state time deltaTime w)
      as (dP & dV & w' & ->).
    eexists _, _. split; reflexivity.
  - intros tableau ev.
    destruct (ExplicitRungeKutta_defined ev state time deltaTime tableau w)
      as (dP & dV & w' & ->).
    eexists _, _. split; reflexivity.
  - intros s f. destruct s; cbn [run_fixed]; run; eexists; reflexivity.
  - intros tableau g.
    rewrite (ExplicitRungeKutta_spec state time deltaTime tableau g
               (fun _ w => w)) by reflexivity.
    rewrite fold_left_skip. eexists. reflexivity.
  - intros s f. destruct s; cbn [run_fixed]; run; eexists _, _;
      (split; [reflexivity|]); repeat constructor.
  - intros tableau g.
    rewrite (ExplicitRungeKutta_spec state time deltaTime tableau g
               (fun c w => w ++ [c])) by reflexivity.
    rewrite log_fold. eexists _, _. split; [reflexivity|].
    cbn [app]. apply Forall_forall. intros c Hc.
    apply list_elem_of_In, in_map_iff in Hc as (i & <- & _). repeat split.
Qed.

(** ** Linearity in the evaluator *)

Lemma scale_default k : scale k DeltaState.default = DeltaState.default.
Proof. unfold scale, DeltaState.default. cbn. f_equal; lra. Qed.

Lemma nth_scale k ks i :
  nth i (scale k <$> ks) DeltaState.default
  = scale k (nth i ks DeltaState.default).
Proof.
  rewrite !nth_lookup, list_lookup_fmap.
  destruct (ks !! i); cbn; [reflexivity | symmetry; apply scale_default].
Qed.

Lemma sum_from_ext acc i n w w' :
  (forall j, w j = w' j) -> sum_from acc i n w = sum_from acc i n w'.
Proof.
  intros Hw. revert acc i. induction n as [|n IH]; intros acc i.
  - reflexivity.
  - rewrite !sum_from_step, Hw. apply IH.
Qed.

Lemma sum_from_scale k acc i n w :
  sum_from (k * acc) i n (fun j => k * w j) = k * sum_from acc i n w.
Proof.
  revert acc i. induction n as [|n IH]; intros acc i.
  - reflexivity.
  - rewrite !sum_from_step, <- IH. f_equal. ring.
Qed.

Lemma weighted_sum_scale k b ks :
  weighted_sum b (scale k <$> ks) DeltaState.vel
  = k * weighted_sum b ks DeltaState.vel
  /\ weighted_sum b (scale k <$> ks) DeltaState.accel
     = k * weighted_sum b ks DeltaState.accel.
Proof.
  unfold weighted_sum. split.
  - rewrite <- sum_from_scale. replace (k * 0) with 0 by ring.
    apply sum_from_ext. intros j. unfold weight.
    rewrite nth_scale. cbn. ring.
  - rewrite <- sum_from_scale. replace (k * 0) with 0 by ring.
    apply sum_from_ext. intros j. unfold weight.
    rewrite nth_scale. cbn. ring.
Qed.

Lemma stages_after_scale {X} k (g g' : PureGeneric X)
    state time deltaTime tableau n :
  scaled_generic k g g' ->
  stages_after g' state time deltaTime tableau n
  = scale k <$> stages_after g state time deltaTime tableau n.
Proof.
  intros Hg. induction n as [|n IH]; cbn [stages_after].
  - rewrite fmap_replicate, scale_default. reflexivity.
  - rewrite IH, Hg, list_fmap_insert. reflexivity.
Qed.

Lemma generic_of_fixed_scaled {X} k (f f' : PureFixed X) :
  scaled_fixed k f f' ->
  scaled_generic k (generic_of_fixed f) (generic_of_fixed f').
Proof.
  intros Hf state time deltaTime ks tableau i. unfold generic_of_fixed.
  destruct (Z.to_nat i) as [|j].
  - rewrite <- (scale_default k) at 1. apply Hf.
  - rewrite nth_scale. apply Hf.
Qed.

(** C7 (as amended): in exact arithmetic, when every [DeltaState] the
    evaluator returns is [k] times what the baseline evaluator returns for
    the corresponding stage, the change every stepper applies to [pos] and to
    [vel] is [k] times the baseline change. *)
Theorem scaling_is_linear {X W} (k : R) (f f' : PureFixed X)
    (g g' : PureGeneric X) :
  scaled_fixed k f f' ->
  scaled_generic k g g' ->
  forall (state : ParticleState.t X) (time deltaTime : R)
         (tableau : ButcherTableau.t) (w : W),
    (forall s : FixedStepper,
       exists st st',
         run_fixed s state time deltaTime (pure_fixed f) w = Some (st, w)
         /\ run_fixed s state time deltaTime (pure_fixed f') w = Some (st', w)
         /\ ParticleState.pos st' - ParticleState.pos state
            = k * (ParticleState.pos st - ParticleState.pos state)
         /\ ParticleState.vel st' - ParticleState.vel state
            = k * (ParticleState.vel st - ParticleState.vel state))
    /\ (exists st st',
          ExplicitRungeKutta state time deltaTime tableau (pure_generic g) w
          = Some (st, w)
          /\ ExplicitRungeKutta state time deltaTime tableau (pure_generic g') w
             = Some (st', w)
          /\ ParticleState.pos st' - ParticleState.pos state
             = k * (ParticleState.pos st - ParticleState.pos state)
          /\ ParticleState.vel st' - ParticleState.vel state
             = k * (ParticleState.vel st - ParticleState.vel state)).
Proof.
  intros Hf Hg state time deltaTime tableau w.
  assert (Hf0 : forall st t o,
    f' st t o DeltaState.default = scale k (f st t o DeltaState.default)).
  { intros st t o. rewrite <- (scale_default k) at 1. apply Hf. }
  split.
  - intros s. destruct s; cbn [run_fixed]; run; rewrite Hf0, ?Hf;
      eexists _, _; (split; [reflexivity|]); (split; [reflexivity|]);
      cbn; split; ring.
  - rewrite !(ExplicitRungeKutta_spec state time deltaTime tableau _
                (fun _ w => w)) by reflexivity.
    rewrite !fold_left_skip. rewrite (stages_after_scale k g g') by exact Hg.
    destruct (weighted_sum_scale k (ButcherTableau.b tableau)
      (stages_after g state time deltaTime tableau
         (length (ButcherTableau.b tableau)))) as [-> ->].
    eexists _, _. split; [reflexivity|]. split; [reflexivity|].
    cbn. split; ring.
Qed.

(** ** Ralston's method through the generic stepper *)

(** C6: on Ralston's tableau, with a generic evaluator that computes for each
    stage what the fixed-stage evaluator computes, [ExplicitRungeKutta]
    returns exactly what [Ralston] returns (in exact arithmetic). *)
Theorem ExplicitRungeKutta_Ralston {X W} (f : PureFixed X) (g : PureGeneric X) :
  honours ralston_tableau f g ->
  forall (state : ParticleState.t X) (time deltaTime : R) (w : W),
    ExplicitRungeKutta state time deltaTime ralston_tableau (pure_generic g) w
    = Ralston state time deltaTime (pure_fixed f) w.
Proof.
  intros Hg state time deltaTime w.
  rewrite (ExplicitRungeKutta_spec state time deltaTime ralston_tableau g
             (fun _ w => w)) by reflexivity.
  rewrite fold_left_skip.
  change (length (ButcherTableau.b ralston_tableau)) with 2%nat.
  cbn [stages_after].
  rewrite (Hg _ _ _ _ 0%nat); [|cbn; lia|apply length_replicate].
  rewrite (Hg _ _ _ _ 1%nat);
    [|cbn; lia|rewrite length_insert; apply length_replicate].
  unfold generic_of_fixed. rewrite !Nat2Z.id. cbn. unfold weight. cbn.
  run. replace (2.0 / 3.0 * deltaTime) with (2 / 3 * deltaTime) by lra.
  same_state.
Qed.

Lemma ExplicitRungeKutta_Ralston_witness :
  honours ralston_tableau (feedback 1) (generic_of_fixed (feedback 1))
  /\ ExplicitRungeKutta (particle 1 2) 0 (1 / 2) ralston_tableau
       (pure_generic (generic_of_fixed (feedback 1))) tt
     = Ralston (particle 1 2) 0 (1 / 2) (pure_fixed (feedback 1)) tt.
Proof.
  assert (H : honours ralston_tableau (feedback 1)
                (generic_of_fixed (feedback 1))).
  { intros state time deltaTime ks i _ _. reflexivity. }
  split; [exact H|].
  apply (ExplicitRungeKutta_Ralston (feedback 1)
           (generic_of_fixed (feedback 1)) H).
Defined.

Lemma scaling_is_linear_witness :
  scaled_fixed 3 (feedback 1) (feedback 3)
  /\ scaled_generic 3 (generic_of_fixed (feedback 1))
       (generic_of_fixed (feedback 3))
  /\ exists st st',
       run_fixed RK4Stepper (particle 1 2) 0 (1 / 2)
         (pure_fixed (feedback 1)) tt = Some (st, tt)
       /\ run_fixed RK4Stepper (particle 1 2) 0 (1 / 2)
            (pure_fixed (feedback 3)) tt = Some (st', tt)
       /\ ParticleState.pos st' - ParticleState.pos (particle 1 2)
          = 3 * (ParticleState.pos st - ParticleState.pos (particle 1 2))
       /\ ParticleState.vel st' - ParticleState.vel (particle 1 2)
          = 3 * (ParticleState.vel st - ParticleState.vel (particle 1 2)).
Proof.
  assert (Hf : scaled_fixed 3 (feedback 1) (feedback 3)).
  { intros state time offset previous. unfold feedback, scale. cbn.
    f_equal; lra. }
  assert (Hg : scaled_generic 3 (generic_of_fixed (feedback 1))
                 (generic_of_fixed (feedback 3))).
  { apply generic_of_fixed_scaled. exact Hf. }
  split; [exact Hf|]. split; [exact Hg|].
  exact (proj1 (scaling_is_linear 3 (feedback 1) (feedback 3)
                  (generic_of_fixed (feedback 1))
                  (generic_of_fixed (feedback 3)) Hf Hg
                  (particle 1 2) 0 (1 / 2) ralston_tableau tt) RK4Stepper).
Defined.

(** ** Exponential growth under Euler *)

Section Growth.
Context {X W : Type}.
Variable ev : FixedEval X W.
Hypothesis ev_growth : forall state time offset w,
  DeltaState.vel (fst (ev state time offset DeltaState.default w))
  = ParticleState.pos state.

Lemma Euler_growth_step state time deltaTime w :
  exists st w',
    Euler state time deltaTime ev w = Some (st, w')
    /\ ParticleState.pos st = (1 + deltaTime) * ParticleState.pos state.
Proof.
  run. pose proof (ev_growth state time deltaTime w) as Hk.
  destruct (ev state time deltaTime DeltaState.default w) as [k1 w1].
  cbn [fst] in Hk. eexists _, _. split; [reflexivity|].
  cbn. rewrite Hk. ring.
Qed.

Lemma Euler_growth_steps n state time deltaTime w :
  exists st w',
    steps n EulerStepper state time deltaTime ev w = Some (st, w')
    /\ ParticleState.pos st = (1 + deltaTime) ^ n * ParticleState.pos state.
Proof.
  revert state time w. induction n as [|n IH]; intros state time w.
  - exists state, w. split; [reflexivity|]. cbn. ring.
  - cbn [steps run_fixed]. unfold bind at 1.
    destruct (Euler_growth_step state time deltaTime w)
      as (st1 & w1 & -> & Hpos1).
    destruct (IH st1 (time + deltaTime) w1) as (st & w' & Hrun & Hpos).
    exists st, w'. split; [exact Hrun|].
    rewrite Hpos, Hpos1. cbn [pow]. ring.
Qed.

End Growth.

(** C9: for [dy/dt = y] (asked for the derivative at the current state, the
    evaluator returns the current value, whatever the time offset),
    [y(0) = 1] and [deltaTime = 0.5], eight Euler steps end at [1.5^8], which
    is within [1e-3] of 25.6289. *)
Theorem Euler_growth_8_steps {X W} (ev : FixedEval X W) :
  (forall state time offset w,
     DeltaState.vel (fst (ev state time offset DeltaState.default w))
     = ParticleState.pos state) ->
  forall (v : R) (o : X) (time : R) (w : W),
    exists st w',
      steps 8 EulerStepper (ParticleState.mk 1 v o) time 0.5 ev w
      = Some (st, w')
      /\ ParticleState.pos st = 1.5 ^ 8
      /\ Rabs (ParticleState.pos st - 25.6289) < 0.001.
Proof.
  intros Hev v o time w.
  destruct (Euler_growth_steps ev Hev 8 (ParticleState.mk 1 v o) time 0.5 w)
    as (st & w' & Hrun & Hpos).
  exists st, w'. split; [exact Hrun|].
  assert (Hval : ParticleState.pos st = 1.5 ^ 8).
  { rewrite Hpos. cbn [ParticleState.pos]. lra. }
  split; [exact Hval|].
  rewrite Hval. unfold Rabs. destruct (Rcase_abs _); lra.
Qed.

Lemma Euler_growth_8_steps_witness :
  (forall state time offset (w : unit),
     DeltaState.vel
       (fst (pure_fixed exponential state time offset DeltaState.default w))
     = ParticleState.pos state)
  /\ exists st w',
       steps 8 EulerStepper (particle 1 1) 0 0.5 (pure_fixed exponential) tt
       = Some (st, w')
       /\ ParticleState.pos st = 1.5 ^ 8
       /\ Rabs (ParticleState.pos st - 25.6289) < 0.001.
Proof.
  assert (H : forall state time offset (w : unit),
    DeltaState.vel
      (fst (pure_fixed exponential state time offset DeltaState.default w))
    = ParticleState.pos state).
  { intros state time offset w. cbn. lra. }
  split; [exact H|].
  exact (Euler_growth_8_steps (pure_fixed exponential) H 1 tt 0 tt).
Defined.

(** ** The first rows of the tables in the source comments

    One step of size 0.5 of [dy/dt = y] from [y = 1]: 1.5 for Euler and 1.625
    for the midpoint rule, as the comments in [integrate.cpp] tabulate;
    Ralston's rule agrees with the midpoint rule here, directly and through
    the generic stepper, and RK4 gives 1.6484375. *)

Example Euler_first_row :
  Euler (particle 1 1) 0 0.5 (pure_fixed exponential) tt
  = Some (particle 1.5 1.5, tt).
Proof. run. unfold particle. cbn. same_state. Qed.

Example MidPoint_first_row :
  MidPoint (particle 1 1) 0 0.5 (pure_fixed exponential) tt
  = Some (particle 1.625 1.75, tt).
Proof. run. unfold particle. cbn. same_state. Qed.

Example Ralston_first_row :
  Ralston (particle 1 1) 0 0.5 (pure_fixed exponential) tt
  = Some (particle 1.625 1.625, tt).
Proof. run. unfold particle. cbn. same_state. Qed.

Example RK4_first_row :
  RK4 (particle 1 1) 0 0.5 (pure_fixed exponential) tt
  = Some (particle 1.6484375 1.6484375, tt).
Proof. run. unfold particle. cbn. same_state. Qed.

Example ExplicitRungeKutta_first_row :
  ExplicitRungeKutta (particle 1 1) 0 0.5 ralston_tableau
    (pure_generic (generic_of_fixed exponential)) tt
  = Some (particle 1.625 1.625, tt).
Proof.
  rewrite (ExplicitRungeKutta_spec _ _ _ _ (generic_of_fixed exponential)
             (fun _ w => w)) by reflexivity.
  rewrite fold_left_skip. cbn. unfold weight, particle, generic_of_fixed.
  rewrite !Nat2Z.id. cbn. same_state.
Qed.

(** * Further properties of the steppers *)

(** ** The classical tableau through the generic stepper *)

(** X1: on the classical fourth-order tableau, with a generic evaluator that
    computes for each stage what the fixed-stage evaluator computes from the
    stage before it, [ExplicitRungeKutta] returns exactly what [RK4]
    returns. *)
Theorem ExplicitRungeKutta_RK4 {X W} (f : PureFixed X) (g : PureGeneric X) :
  honours rk4_tableau f g ->
  forall (state : ParticleState.t X) (time deltaTime : R) (w : W),
    ExplicitRungeKutta state time deltaTime rk4_tableau (pure_generic g) w
    = RK4 state time deltaTime (pure_fixed f) w.
Proof.
  intros Hg state time deltaTime w.
  rewrite (ExplicitRungeKutta_spec state time deltaTime rk4_tableau g
             (fun _ w => w)) by reflexivity.
  rewrite fold_left_skip.
  change (length (ButcherTableau.b rk4_tableau)) with 4%nat.
  cbn [stages_after].
  rewrite (Hg _ _ _ _ 0%nat); [|cbn; lia|apply length_replicate].
  rewrite (Hg _ _ _ _ 1%nat);
    [|cbn; lia|rewrite !length_insert; apply length_replicate].
  rewrite (Hg _ _ _ _ 2%nat);
    [|cbn; lia|rewrite !length_insert; apply length_replicate].
  rewrite (Hg _ _ _ _ 3%nat);
    [|cbn; lia|rewrite !length_insert; apply length_replicate].
  unfold generic_of_fixed. rewrite !Nat2Z.id. cbn. unfold weight. cbn.
  run.
  replace (1 / 2 * deltaTime) with (0.5 * deltaTime) by lra.
  replace (1 * deltaTime) with deltaTime by lra.
  same_state.
Qed.

Lemma ExplicitRungeKutta_RK4_witness :
  honours rk4_tableau (feedback 1) (generic_of_fixed (feedback 1))
  /\ ExplicitRungeKutta (particle 1 2) 0 (1 / 2) rk4_tableau
       (pure_generic (generic_of_fixed (feedback 1))) tt
     = RK4 (particle 1 2) 0 (1 / 2) (pure_fixed (feedback 1)) tt.
Proof.
  assert (H : honours rk4_tableau (feedback 1)
                (generic_of_fixed (feedback 1))).
  { intros state time deltaTime ks i _ _. reflexivity. }
  split; [exact H|].
  apply (ExplicitRungeKutta_RK4 (feedback 1)
           (generic_of_fixed (feedback 1)) H).
Defined.

(** ** What the generic stepper reads of the tableau *)

Lemma for_loop_ext {W S} (body body' : nat -> S -> M W S) n i s w :
  (forall j s' w', body j s' w' = body' j s' w') ->
  for_loop n i body s w = for_loop n i body' s w.
Proof.
  intros Hb. revert i s w. induction n as [|n IH]; intros i s w.
  - reflexivity.
  - cbn [for_loop]. unfold bind. rewrite Hb.
    destruct (body' i s w) as [[s' w']|]; [apply IH | reflexivity].
Qed.

(** X2: [ExplicitRungeKutta] itself reads only [tableau.b]: with an evaluator
    that does not look at the tableau, [a] and [c] can be replaced by
    anything, of any size, without changing the result. *)
Theorem ExplicitRungeKutta_reads_only_b {X W} (ev : GenericEval X W) :
  tableau_blind ev ->
  forall (state : ParticleState.t X) (time deltaTime : R)
         (a a' : list (list R)) (b c c' : list R) (w : W),
    ExplicitRungeKutta state time deltaTime (ButcherTableau.mk a b c) ev w
    = ExplicitRungeKutta state time deltaTime (ButcherTableau.mk a' b c') ev w.
Proof.
  intros Hev state time deltaTime a a' b c c' w.
  unfold ExplicitRungeKutta. cbn [ButcherTableau.b]. unfold bind at 1 3.
  rewrite (for_loop_ext
             (stage_body state time deltaTime (ButcherTableau.mk a b c) ev)
             (stage_body state time deltaTime (ButcherTableau.mk a' b c') ev)).
  - reflexivity.
  - intros j ks w'. unfold stage_body, bind, call.
    rewrite (Hev _ _ _ _ _ (ButcherTableau.mk a' b c')). reflexivity.
Qed.

Lemma ExplicitRungeKutta_reads_only_b_witness :
  tableau_blind (pure_generic (W := unit) drift)
  /\ ExplicitRungeKutta (particle 1 2) 0 (1 / 2)
       (ButcherTableau.mk [[0; 0]; [2 / 3; 0]] [1 / 4; 3 / 4] [0; 2 / 3])
       (pure_generic drift) tt
     = ExplicitRungeKutta (particle 1 2) 0 (1 / 2)
         (ButcherTableau.mk [] [1 / 4; 3 / 4] [5]) (pure_generic drift) tt.
Proof.
  assert (H : tableau_blind (pure_generic (W := unit) drift)).
  { intros state time deltaTime ks tableau tableau' i w. reflexivity. }
  split; [exact H|].
  apply (ExplicitRungeKutta_reads_only_b (pure_generic drift) H).
Defined.

(** ** Euler as a one-stage tableau *)

Lemma ExplicitRungeKutta_after_stages {X W} (ev : GenericEval X W)
    (state : ParticleState.t X) (time deltaTime : R)
    (tableau : ButcherTableau.t) (w w' : W) (ks : list DeltaState.t) :
  for_loop (length (ButcherTableau.b tableau)) 0
    (stage_body state time deltaTime tableau ev)
    (replicate (length (ButcherTableau.b tableau)) DeltaState.default) w
  = Some (ks, w') ->
  length ks = length (ButcherTableau.b tableau) ->
  ExplicitRungeKutta state time deltaTime tableau ev w
  = Some (ParticleState.mk
            (ParticleState.pos state
             + deltaTime
               * weighted_sum (ButcherTableau.b tableau) ks DeltaState.vel)
            (ParticleState.vel state
             + deltaTime
               * weighted_sum (ButcherTableau.b tableau) ks DeltaState.accel)
            (ParticleState.other state), w').
Proof.
  intros Hrun Hlen. unfold ExplicitRungeKutta.
  rewrite length_replicate. unfold bind at 1. rewrite Hrun.
  unfold bind. rewrite sum_loop_spec by (cbn; lia). reflexivity.
Qed.

(** X3: with the single weight [b = [1]] and an evaluator that is handed the
    generic stepper's [state], [time] and [deltaTime], [ExplicitRungeKutta]
    returns exactly what [Euler] returns, and leaves the same world. *)
Theorem ExplicitRungeKutta_single_weight {X W} (ev : FixedEval X W)
    (state : ParticleState.t X) (time deltaTime : R)
    (a : list (list R)) (c : list R) (w : W) :
  ExplicitRungeKutta state time deltaTime (ButcherTableau.mk a [1] c)
    (forwarding ev) w
  = Euler state time deltaTime ev w.
Proof.
  destruct (ev state time deltaTime DeltaState.default w) as [k1 w1] eqn:Hev.
  rewrite (ExplicitRungeKutta_after_stages _ _ _ _ _ _ w1 [k1]).
  - unfold Euler, bind, call, ret. rewrite Hev.
    unfold weighted_sum, weight, ParticleState.set_pos, ParticleState.set_vel.
    cbn. same_state.
  - cbn [ButcherTableau.b length replicate for_loop].
    unfold bind, stage_body, forwarding, bind, call, vec_set, ret.
    rewrite Hev. reflexivity.
  - reflexivity.
Qed.

(** ** A constant rate of change *)

Ltac constant_calls Hk :=
  repeat match goal with
  | |- context [?ev ?s ?t ?o ?p ?w] =>
      match type of (ev s t o p w) with
      | (DeltaState.t * _)%type =>
          let H := fresh "H" in
          let k := fresh "k" in
          let w' := fresh "w" in
          pose proof (Hk s t o p w) as H;
          destruct (ev s t o p w) as [k w']; cbn [fst] in H; subst k
      end
  end.

(** X4: in exact arithmetic, when every evaluator call returns the same rate
    [k], [Euler], [Ralston] and [RK4] all take the same step:
    [pos += h * k.vel] and [vel += h * k.accel]. *)
Theorem constant_rate_step {X W} (k : DeltaState.t) (ev : FixedEval X W)
    (s : FixedStepper) :
  constant_fixed k ev ->
  s <> MidPointStepper ->
  forall (state : ParticleState.t X) (time deltaTime : R) (w : W),
    exists w',
      run_fixed s state time deltaTime ev w
      = Some (ParticleState.mk
                (ParticleState.pos state + deltaTime * DeltaState.vel k)
                (ParticleState.vel state + deltaTime * DeltaState.accel k)
                (ParticleState.other state), w').
Proof.
  intros Hk Hs state time deltaTime w.
  destruct s; [| congruence | |]; cbn [run_fixed]; run; constant_calls Hk;
    eexists; same_state.
Qed.

Lemma constant_rate_step_witness :
  constant_fixed (DeltaState.mk 3 (-10)) (pure_fixed (W := unit) (uniform 3 (-10)))
  /\ RK4Stepper <> MidPointStepper
  /\ exists w',
       run_fixed RK4Stepper (particle 0 0) 0 (1 / 2)
         (pure_fixed (uniform 3 (-10))) tt
       = Some (ParticleState.mk
                 (ParticleState.pos (particle 0 0)
                  + 1 / 2 * DeltaState.vel (DeltaState.mk 3 (-10)))
                 (ParticleState.vel (particle 0 0)
                  + 1 / 2 * DeltaState.accel (DeltaState.mk 3 (-10)))
                 (ParticleState.other (particle 0 0)), w').
Proof.
  assert (Hk : constant_fixed (DeltaState.mk 3 (-10))
                 (pure_fixed (W := unit) (uniform 3 (-10)))).
  { intros state time offset previous w. reflexivity. }
  assert (Hs : RK4Stepper <> MidPointStepper) by discriminate.
  split; [exact Hk|]. split; [exact Hs|].
  exact (constant_rate_step _ _ RK4Stepper Hk Hs (particle 0 0) 0 (1 / 2) tt).
Defined.

(** X5: in exact arithmetic, under the same constant rate [k], [MidPoint]
    takes another step,
    [pos += h * (1 + h/2) * k.vel] and [vel += 1.5 * h * k.accel], so its
    gain in velocity is one and a half times that of the other steppers. *)
Theorem MidPoint_constant_rate {X W} (k : DeltaState.t) (ev : FixedEval X W) :
  constant_fixed k ev ->
  forall (state : ParticleState.t X) (time deltaTime : R) (w : W),
    exists w',
      MidPoint state time deltaTime ev w
      = Some (ParticleState.mk
                (ParticleState.pos state
                 + deltaTime * (1 + deltaTime / 2) * DeltaState.vel k)
                (ParticleState.vel state + 1.5 * (deltaTime * DeltaState.accel k))
                (ParticleState.other state), w').
Proof.
  intros Hk state time deltaTime w. run. constant_calls Hk.
  eexists. same_state.
Qed.

Lemma MidPoint_constant_rate_witness :
  constant_fixed (DeltaState.mk 3 (-10)) (pure_fixed (W := unit) (uniform 3 (-10)))
  /\ exists w',
       MidPoint (particle 0 0) 0 (1 / 2) (pure_fixed (uniform 3 (-10))) tt
       = Some (ParticleState.mk
                 (ParticleState.pos (particle 0 0)
                  + 1 / 2 * (1 + 1 / 2 / 2) * DeltaState.vel (DeltaState.mk 3 (-10)))
                 (ParticleState.vel (particle 0 0)
                  + 1.5 * (1 / 2 * DeltaState.accel (DeltaState.mk 3 (-10))))
                 (ParticleState.other (particle 0 0)), w').
Proof.
  assert (Hk : constant_fixed (DeltaState.mk 3 (-10))
                 (pure_fixed (W := unit) (uniform 3 (-10)))).
  { intros state time offset previous w. reflexivity. }
  split; [exact Hk|].
  exact (MidPoint_constant_rate _ _ Hk (particle 0 0) 0 (1 / 2) tt).
Defined.

(** X6: in exact arithmetic, a step forward by [h] followed by a step back
    by [-h], under a constant rate [k]: [Euler], [Ralston] and [RK4] return
    to the state they started from, while [MidPoint] restores [vel] but ends with [pos]
    displaced by [h * h * k.vel]. *)
Theorem there_and_back {X W} (k : DeltaState.t) (ev : FixedEval X W) :
  constant_fixed k ev ->
  forall (s : FixedStepper) (state : ParticleState.t X)
         (time deltaTime : R) (w : W),
    exists st w',
      run_fixed s state time deltaTime ev w = Some (st, w')
      /\ exists st2 w'',
           run_fixed s st (time + deltaTime) (- deltaTime) ev w'
           = Some (st2, w'')
           /\ ParticleState.vel st2 = ParticleState.vel state
           /\ ParticleState.other st2 = ParticleState.other state
           /\ ParticleState.pos st2
              = ParticleState.pos state
                + match s with
                  | MidPointStepper => deltaTime * deltaTime * DeltaState.vel k
                  | _ => 0
                  end.
Proof.
  intros Hk s state time deltaTime w.
  destruct s; cbn [run_fixed]; run; constant_calls Hk;
    eexists _, _; (split; [reflexivity|]);
    run; constant_calls Hk;
    eexists _, _; (split; [reflexivity|]);
    cbn; repeat split; lra.
Qed.

Lemma there_and_back_witness :
  constant_fixed (DeltaState.mk 3 (-10)) (pure_fixed (W := unit) (uniform 3 (-10)))
  /\ exists st w',
       run_fixed MidPointStepper (particle 0 0) 0 (1 / 2)
         (pure_fixed (uniform 3 (-10))) tt = Some (st, w')
       /\ exists st2 w'',
            run_fixed MidPointStepper st (0 + 1 / 2) (- (1 / 2))
              (pure_fixed (uniform 3 (-10))) w' = Some (st2, w'')
            /\ ParticleState.vel st2 = ParticleState.vel (particle 0 0)
            /\ ParticleState.other st2 = ParticleState.other (particle 0 0)
            /\ ParticleState.pos st2
               = ParticleState.pos (particle 0 0)
                 + 1 / 2 * (1 / 2) * DeltaState.vel (DeltaState.mk 3 (-10)).
Proof.
  assert (Hk : constant_fixed (DeltaState.mk 3 (-10))
                 (pure_fixed (W := unit) (uniform 3 (-10)))).
  { intros state time offset previous w. reflexivity. }
  split; [exact Hk|].
  exact (there_and_back _ _ Hk MidPointStepper (particle 0 0) 0 (1 / 2) tt).
Defined.

(** ** The weights of the generic stepper *)

Lemma sum_from_shift acc i0 n w :
  sum_from acc (S i0) n w = sum_from acc i0 n (fun j => w (S j)).
Proof.
  revert acc i0. induction n as [|n IH]; intros acc i0.
  - reflexivity.
  - rewrite !sum_from_step. apply IH.
Qed.

Lemma sum_from_ext_in acc i0 n w w' :
  (forall j, (i0 <= j < i0 + n)%nat -> w j = w' j) ->
  sum_from acc i0 n w = sum_from acc i0 n w'.
Proof.
  revert acc i0. induction n as [|n IH]; intros acc i0 Hw.
  - reflexivity.
  - rewrite !sum_from_step, (Hw i0) by lia. apply IH.
    intros j Hj. apply Hw. lia.
Qed.

Lemma sum_from_total b acc x :
  sum_from acc 0 (length b) (fun i => nth i b 0 * x) = acc + total b * x.
Proof.
  revert acc. induction b as [|b0 b IH]; intros acc.
  - cbn. ring.
  - cbn [length]. rewrite sum_from_step, sum_from_shift.
    cbn [nth total fold_right]. rewrite IH. fold (total b). ring.
Qed.

(** X7: in exact arithmetic, when every evaluator call returns the same rate
    [k], [ExplicitRungeKutta] adds [h * (b[0] + b[1] + ...) * k.vel] to
    [pos] and [h * (b[0] + b[1] + ...) * k.accel] to [vel]; with weights that add up
    to 1 this is the step [Euler], [Ralston] and [RK4] take. *)
Theorem ExplicitRungeKutta_constant_rate {X W} (k : DeltaState.t)
    (g : PureGeneric X) :
  constant_generic k g ->
  forall (state : ParticleState.t X) (time deltaTime : R)
         (tableau : ButcherTableau.t) (w : W),
    ExplicitRungeKutta state time deltaTime tableau (pure_generic g) w
    = Some (ParticleState.mk
              (ParticleState.pos state
               + deltaTime
                 * (total (ButcherTableau.b tableau) * DeltaState.vel k))
              (ParticleState.vel state
               + deltaTime
                 * (total (ButcherTableau.b tableau) * DeltaState.accel k))
              (ParticleState.other state), w).
Proof.
  intros Hk state time deltaTime tableau w.
  rewrite (ExplicitRungeKutta_spec state time deltaTime tableau g
             (fun _ w => w)) by reflexivity.
  rewrite fold_left_skip.
  assert (Hks : forall j, (j < length (ButcherTableau.b tableau))%nat ->
    nth j (stages_after g state time deltaTime tableau
             (length (ButcherTableau.b tableau))) DeltaState.default = k).
  { intros j Hj. apply nth_lookup_Some.
    rewrite stages_after_earlier by lia. f_equal. apply Hk. }
  assert (Hsum : forall proj,
    weighted_sum (ButcherTableau.b tableau)
      (stages_after g state time deltaTime tableau
         (length (ButcherTableau.b tableau))) proj
    = total (ButcherTableau.b tableau) * proj k).
  { intros proj. unfold weighted_sum.
    rewrite (sum_from_ext_in _ _ _ _
               (fun i => nth i (ButcherTableau.b tableau) 0 * proj k)).
    - rewrite sum_from_total. ring.
    - intros j Hj. unfold weight. rewrite Hks by lia. reflexivity. }
  rewrite !Hsum. reflexivity.
Qed.

Lemma ExplicitRungeKutta_constant_rate_witness :
  constant_generic (DeltaState.mk 3 (-10))
    (fun (_ : ParticleState.t unit) _ _ _ _ _ => DeltaState.mk 3 (-10))
  /\ ExplicitRungeKutta (particle 0 0) 0 (1 / 2) ralston_tableau
       (pure_generic (fun _ _ _ _ _ _ => DeltaState.mk 3 (-10))) tt
     = Some (ParticleState.mk
               (ParticleState.pos (particle 0 0)
                + 1 / 2 * (total (ButcherTableau.b ralston_tableau)
                           * DeltaState.vel (DeltaState.mk 3 (-10))))
               (ParticleState.vel (particle 0 0)
                + 1 / 2 * (total (ButcherTableau.b ralston_tableau)
                           * DeltaState.accel (DeltaState.mk 3 (-10))))
               (ParticleState.other (particle 0 0)), tt).
Proof.
  assert (Hk : constant_generic (DeltaState.mk 3 (-10))
    (fun (_ : ParticleState.t unit) _ _ _ _ _ => DeltaState.mk 3 (-10))).
  { intros state time deltaTime ks tableau i. reflexivity. }
  split; [exact Hk|].
  exact (ExplicitRungeKutta_constant_rate _ _ Hk (particle 0 0) 0 (1 / 2)
           ralston_tableau tt).
Defined.

(** ** Superposition *)

Lemma plus_default :
  plus DeltaState.default DeltaState.default = DeltaState.default.
Proof. unfold plus, DeltaState.default. cbn. f_equal; lra. Qed.

Lemma nth_plus ks ks' i :
  length ks = length ks' ->
  nth i (zip_with plus ks ks') DeltaState.default
  = plus (nth i ks DeltaState.default) (nth i ks' DeltaState.default).
Proof.
  intros Hlen. rewrite !nth_lookup, lookup_zip_with.
  destruct (ks !! i) as [x|] eqn:Hx; destruct (ks' !! i) as [y|] eqn:Hy; cbn.
  - reflexivity.
  - apply lookup_lt_Some in Hx. apply lookup_ge_None in Hy. lia.
  - apply lookup_lt_Some in Hy. apply lookup_ge_None in Hx. lia.
  - symmetry. apply plus_default.
Qed.

Lemma sum_from_plus acc acc' i n w w' :
  sum_from (acc + acc') i n (fun j => w j + w' j)
  = sum_from acc i n w + sum_from acc' i n w'.
Proof.
  revert acc acc' i. induction n as [|n IH]; intros acc acc' i.
  - reflexivity.
  - rewrite !sum_from_step, <- IH. f_equal. ring.
Qed.

Lemma weighted_sum_plus b ks ks' :
  length ks = length ks' ->
  weighted_sum b (zip_with plus ks ks') DeltaState.vel
  = weighted_sum b ks DeltaState.vel + weighted_sum b ks' DeltaState.vel
  /\ weighted_sum b (zip_with plus ks ks') DeltaState.accel
     = weighted_sum b ks DeltaState.accel + weighted_sum b ks' DeltaState.accel.
Proof.
  intros Hlen. unfold weighted_sum. split.
  - rewrite <- sum_from_plus. replace (0 + 0) with 0 by ring.
    apply sum_from_ext. intros j. unfold weight.
    rewrite nth_plus by exact Hlen. cbn. ring.
  - rewrite <- sum_from_plus. replace (0 + 0) with 0 by ring.
    apply sum_from_ext. intros j. unfold weight.
    rewrite nth_plus by exact Hlen. cbn. ring.
Qed.

Lemma stages_after_plus {X} (g g' g'' : PureGeneric X)
    state time deltaTime tableau n :
  superposed_generic g g' g'' ->
  stages_after g'' state time deltaTime tableau n
  = zip_with plus (stages_after g state time deltaTime tableau n)
      (stages_after g' state time deltaTime tableau n).
Proof.
  intros Hg. induction n as [|n IH]; cbn [stages_after].
  - rewrite zip_with_replicate, plus_default. reflexivity.
  - rewrite IH, Hg by (rewrite !length_stages_after; reflexivity).
    rewrite insert_zip_with. reflexivity.
Qed.

(** X8: in exact arithmetic the steppers superpose.  When the evaluator
    [f''] returns, stage by stage, the sum of what [f] and [f'] return, the change every stepper
    applies to [pos] and to [vel] under [f''] is the sum of the changes under
    [f] and under [f']. *)
Theorem superposition {X W} (f f' f'' : PureFixed X)
    (g g' g'' : PureGeneric X) :
  superposed_fixed f f' f'' ->
  superposed_generic g g' g'' ->
  forall (state : ParticleState.t X) (time deltaTime : R)
         (tableau : ButcherTableau.t) (w : W),
    (forall s : FixedStepper,
       exists st st' st'',
         run_fixed s state time deltaTime (pure_fixed f) w = Some (st, w)
         /\ run_fixed s state time deltaTime (pure_fixed f') w = Some (st', w)
         /\ run_fixed s state time deltaTime (pure_fixed f'') w = Some (st'', w)
         /\ ParticleState.pos st'' - ParticleState.pos state
            = (ParticleState.pos st - ParticleState.pos state)
              + (ParticleState.pos st' - ParticleState.pos state)
         /\ ParticleState.vel st'' - ParticleState.vel state
            = (ParticleState.vel st - ParticleState.vel state)
              + (ParticleState.vel st' - ParticleState.vel state))
    /\ (exists st st' st'',
          ExplicitRungeKutta state time deltaTime tableau (pure_generic g) w
          = Some (st, w)
          /\ ExplicitRungeKutta state time deltaTime tableau (pure_generic g') w
             = Some (st', w)
          /\ ExplicitRungeKutta state time deltaTime tableau (pure_generic g'') w
             = Some (st'', w)
          /\ ParticleState.pos st'' - ParticleState.pos state
             = (ParticleState.pos st - ParticleState.pos state)
               + (ParticleState.pos st' - ParticleState.pos state)
          /\ ParticleState.vel st'' - ParticleState.vel state
             = (ParticleState.vel st - ParticleState.vel state)
               + (ParticleState.vel st' - ParticleState.vel state)).
Proof.
  intros Hf Hg state time deltaTime tableau w.
  assert (Hf0 : forall st t o,
    f'' st t o DeltaState.default
    = plus (f st t o DeltaState.default) (f' st t o DeltaState.default)).
  { intros st t o. rewrite <- plus_default at 1. apply Hf. }
  split.
  - intros s. destruct s; cbn [run_fixed]; run; rewrite Hf0, ?Hf;
      eexists _, _, _; (split; [reflexivity|]); (split; [reflexivity|]);
      (split; [reflexivity|]); cbn; split; ring.
  - rewrite !(ExplicitRungeKutta_spec state time deltaTime tableau _
                (fun _ w => w)) by reflexivity.
    rewrite !fold_left_skip. rewrite (stages_after_plus g g' g'') by exact Hg.
    destruct (weighted_sum_plus (ButcherTableau.b tableau)
      (stages_after g state time deltaTime tableau
         (length (ButcherTableau.b tableau)))
      (stages_after g' state time deltaTime tableau
         (length (ButcherTableau.b tableau)))) as [-> ->].
    { rewrite !length_stages_after. reflexivity. }
    eexists _, _, _. split; [reflexivity|]. split; [reflexivity|].
    split; [reflexivity|]. cbn. split; ring.
Qed.

Lemma generic_of_fixed_superposed {X} (f f' f'' : PureFixed X) :
  superposed_fixed f f' f'' ->
  superposed_generic (generic_of_fixed f) (generic_of_fixed f')
    (generic_of_fixed f'').
Proof.
  intros Hf state time deltaTime ks ks' tableau i Hlen.
  unfold generic_of_fixed. destruct (Z.to_nat i) as [|j].
  - rewrite <- plus_default at 1. apply Hf.
  - rewrite nth_plus by exact Hlen. apply Hf.
Qed.

Lemma superposition_witness :
  superposed_fixed (feedback 1) (feedback 2) (feedback 3)
  /\ superposed_generic (generic_of_fixed (feedback 1))
       (generic_of_fixed (feedback 2)) (generic_of_fixed (feedback 3))
  /\ exists st st' st'',
       run_fixed RK4Stepper (particle 1 2) 0 (1 / 2)
         (pure_fixed (feedback 1)) tt = Some (st, tt)
       /\ run_fixed RK4Stepper (particle 1 2) 0 (1 / 2)
            (pure_fixed (feedback 2)) tt = Some (st', tt)
       /\ run_fixed RK4Stepper (particle 1 2) 0 (1 / 2)
            (pure_fixed (feedback 3)) tt = Some (st'', tt)
       /\ ParticleState.pos st'' - ParticleState.pos (particle 1 2)
          = (ParticleState.pos st - ParticleState.pos (particle 1 2))
            + (ParticleState.pos st' - ParticleState.pos (particle 1 2))
       /\ ParticleState.vel st'' - ParticleState.vel (particle 1 2)
          = (ParticleState.vel st - ParticleState.vel (particle 1 2))
            + (ParticleState.vel st' - ParticleState.vel (particle 1 2)).
Proof.
  assert (Hf : superposed_fixed (feedback 1) (feedback 2) (feedback 3)).
  { intros state time offset previous previous'. unfold feedback, plus. cbn.
    f_equal; lra. }
  assert (Hg : superposed_generic (generic_of_fixed (feedback 1))
                 (generic_of_fixed (feedback 2))
                 (generic_of_fixed (feedback 3))).
  { apply generic_of_fixed_superposed. exact Hf. }
  split; [exact Hf|]. split; [exact Hg|].
  exact (proj1 (superposition (feedback 1) (feedback 2) (feedback 3)
                  (generic_of_fixed (feedback 1))
                  (generic_of_fixed (feedback 2))
                  (generic_of_fixed (feedback 3)) Hf Hg
                  (particle 1 2) 0 (1 / 2) ralston_tableau tt) RK4Stepper).
Defined.

(** ** The linear test equation *)

(** Steps that multiply [pos] and [vel] by fixed factors compound. *)
Lemma steps_geometric {X W} (s : FixedStepper) (ev : FixedEval X W)
    (deltaTime rp rv : R) :
  (forall (state : ParticleState.t X) time w,
     exists st w',
       run_fixed s state time deltaTime ev w = Some (st, w')
       /\ ParticleState.pos st = rp * ParticleState.pos state
       /\ ParticleState.vel st = rv * ParticleState.vel state) ->
  forall n (state : ParticleState.t X) time w,
    exists st w',
      steps n s state time deltaTime ev w = Some (st, w')
      /\ ParticleState.pos st = rp ^ n * ParticleState.pos state
      /\ ParticleState.vel st = rv ^ n * ParticleState.vel state.
Proof.
  intros Hstep n. induction n as [|n IH]; intros state time w.
  - exists state, w. split; [reflexivity|]. cbn. split; ring.
  - cbn [steps]. unfold bind at 1.
    destruct (Hstep state time w) as (st1 & w1 & -> & Hp1 & Hv1).
    destruct (IH st1 (time + deltaTime) w1) as (st & w' & Hrun & Hp & Hv).
    exists st, w'. split; [exact Hrun|].
    rewrite Hp, Hv, Hp1, Hv1. cbn [pow]. split; ring.
Qed.

Ltac linear_calls Hev :=
  repeat match goal with
  | |- context [?ev ?s ?t ?o ?p ?w] =>
      match type of (ev s t o p w) with
      | (DeltaState.t * _)%type =>
          let H := fresh "H" in
          let k := fresh "k" in
          let w' := fresh "w" in
          pose proof (Hev s t o p w) as H;
          destruct (ev s t o p w) as [k w']; cbn [fst] in H; subst k;
          cbn [DeltaState.vel DeltaState.accel]
      end
  end.

Lemma linear_test_step {X W} (ev : FixedEval X W) (s : FixedStepper)
    (deltaTime : R) :
  linear_test ev ->
  let h := deltaTime in
  let rp := match s with
            | EulerStepper => 1 + h
            | MidPointStepper | RalstonStepper => 1 + h + h ^ 2 / 2
            | RK4Stepper => 1 + h + h ^ 2 / 2 + h ^ 3 / 6 + h ^ 4 / 24
            end in
  let rv := match s with
            | MidPointStepper => 1 + 1.5 * h
            | _ => rp
            end in
  forall (state : ParticleState.t X) time w,
    exists st w',
      run_fixed s state time h ev w = Some (st, w')
      /\ ParticleState.pos st = rp * ParticleState.pos state
      /\ ParticleState.vel st = rv * ParticleState.vel state.
Proof.
  intros Hev h rp rv state time w. subst h rp rv.
  destruct s; cbn [run_fixed]; run; linear_calls Hev;
    eexists _, _; (split; [reflexivity|]); cbn; split; lra.
Qed.

(** X9: in exact arithmetic, on the linear test equation [MidPoint]
    multiplies [pos] by
    [1 + h + h^2/2] and [vel] by [1 + 1.5*h] at every step.  From [y = 1],
    eight steps of size 0.5 end within [1e-3] of 48.6213, the last row of the
    table in the comment above [MidPoint]. *)
Theorem MidPoint_growth {X W} (ev : FixedEval X W) :
  linear_test ev ->
  (forall n (state : ParticleState.t X) (time h : R) (w : W),
     exists st w',
       steps n MidPointStepper state time h ev w = Some (st, w')
       /\ ParticleState.pos st
          = (1 + h + h ^ 2 / 2) ^ n * ParticleState.pos state
       /\ ParticleState.vel st
          = (1 + 1.5 * h) ^ n * ParticleState.vel state)
  /\ (forall (v : R) (o : X) (time : R) (w : W),
        exists st w',
          steps 8 MidPointStepper (ParticleState.mk 1 v o) time 0.5 ev w
          = Some (st, w')
          /\ Rabs (ParticleState.pos st - 48.6213) < 0.001).
Proof.
  intros Hev.
  assert (Hsteps : forall n (state : ParticleState.t X) (time h : R) (w : W),
    exists st w',
      steps n MidPointStepper state time h ev w = Some (st, w')
      /\ ParticleState.pos st
         = (1 + h + h ^ 2 / 2) ^ n * ParticleState.pos state
      /\ ParticleState.vel st
         = (1 + 1.5 * h) ^ n * ParticleState.vel state).
  { intros n state time h w.
    apply (steps_geometric MidPointStepper ev h).
    apply (linear_test_step ev MidPointStepper h Hev). }
  split; [exact Hsteps|].
  intros v o time w.
  destruct (Hsteps 8%nat (ParticleState.mk 1 v o) time 0.5 w)
    as (st & w' & Hrun & Hpos & _).
  exists st, w'. split; [exact Hrun|].
  rewrite Hpos. cbn [ParticleState.pos].
  unfold Rabs. destruct (Rcase_abs _); lra.
Qed.

Lemma MidPoint_growth_witness :
  linear_test (pure_fixed (W := unit) exponential)
  /\ exists st w',
       steps 8 MidPointStepper (particle 1 1) 0 0.5 (pure_fixed exponential) tt
       = Some (st, w')
       /\ Rabs (ParticleState.pos st - 48.6213) < 0.001.
Proof.
  assert (H : linear_test (pure_fixed (W := unit) exponential)).
  { intros state time offset previous w. reflexivity. }
  split; [exact H|].
  exact (proj2 (MidPoint_growth (pure_fixed exponential) H) 1 tt 0 tt).
Defined.

(** X10: in exact arithmetic, on the linear test equation [Ralston]
    multiplies [pos] and [vel] by
    [1 + h + h^2/2] at every step, the Taylor polynomial of degree 2 of
    [exp h]. *)
Theorem Ralston_growth {X W} (ev : FixedEval X W) :
  linear_test ev ->
  forall n (state : ParticleState.t X) (time h : R) (w : W),
    exists st w',
      steps n RalstonStepper state time h ev w = Some (st, w')
      /\ ParticleState.pos st
         = (1 + h + h ^ 2 / 2) ^ n * ParticleState.pos state
      /\ ParticleState.vel st
         = (1 + h + h ^ 2 / 2) ^ n * ParticleState.vel state.
Proof.
  intros Hev n state time h w.
  apply (steps_geometric RalstonStepper ev h).
  apply (linear_test_step ev RalstonStepper h Hev).
Qed.

Lemma Ralston_growth_witness :
  linear_test (pure_fixed (W := unit) exponential)
  /\ exists st w',
       steps 8 RalstonStepper (particle 1 1) 0 0.5 (pure_fixed exponential) tt
       = Some (st, w')
       /\ ParticleState.pos st
          = (1 + 0.5 + 0.5 ^ 2 / 2) ^ 8 * ParticleState.pos (particle 1 1)
       /\ ParticleState.vel st
          = (1 + 0.5 + 0.5 ^ 2 / 2) ^ 8 * ParticleState.vel (particle 1 1).
Proof.
  assert (H : linear_test (pure_fixed (W := unit) exponential)).
  { intros state time offset previous w. reflexivity. }
  split; [exact H|].
  exact (Ralston_growth (pure_fixed exponential) H 8%nat (particle 1 1) 0 0.5 tt).
Defined.

(** X11: in exact arithmetic, on the linear test equation [RK4]
    multiplies [pos] and [vel] by
    [1 + h + h^2/2 + h^3/6 + h^4/24] at every step, the Taylor polynomial of
    degree 4 of [exp h].  From [y = 1], eight steps of size 0.5 end within
    [1e-3] of 54.5230. *)
Theorem RK4_growth {X W} (ev : FixedEval X W) :
  linear_test ev ->
  (forall n (state : ParticleState.t X) (time h : R) (w : W),
     exists st w',
       steps n RK4Stepper state time h ev w = Some (st, w')
       /\ ParticleState.pos st
          = (1 + h + h ^ 2 / 2 + h ^ 3 / 6 + h ^ 4 / 24) ^ n
            * ParticleState.pos state
       /\ ParticleState.vel st
          = (1 + h + h ^ 2 / 2 + h ^ 3 / 6 + h ^ 4 / 24) ^ n
            * ParticleState.vel state)
  /\ (forall (v : R) (o : X) (time : R) (w : W),
        exists st w',
          steps 8 RK4Stepper (ParticleState.mk 1 v o) time 0.5 ev w
          = Some (st, w')
          /\ Rabs (ParticleState.pos st - 54.5230) < 0.001).
Proof.
  intros Hev.
  assert (Hsteps : forall n (state : ParticleState.t X) (time h : R) (w : W),
    exists st w',
      steps n RK4Stepper state time h ev w = Some (st, w')
      /\ ParticleState.pos st
         = (1 + h + h ^ 2 / 2 + h ^ 3 / 6 + h ^ 4 / 24) ^ n
           * ParticleState.pos state
      /\ ParticleState.vel st
         = (1 + h + h ^ 2 / 2 + h ^ 3 / 6 + h ^ 4 / 24) ^ n
           * ParticleState.vel state).
  { intros n state time h w.
    apply (steps_geometric RK4Stepper ev h).
    apply (linear_test_step ev RK4Stepper h Hev). }
  split; [exact Hsteps|].
  intros v o time w.
  destruct (Hsteps 8%nat (ParticleState.mk 1 v o) time 0.5 w)
    as (st & w' & Hrun & Hpos & _).
  exists st, w'. split; [exact Hrun|].
  rewrite Hpos. cbn [ParticleState.pos].
  unfold Rabs. destruct (Rcase_abs _); lra.
Qed.

Lemma RK4_growth_witness :
  linear_test (pure_fixed (W := unit) exponential)
  /\ exists st w',
       steps 8 RK4Stepper (particle 1 1) 0 0.5 (pure_fixed exponential) tt
       = Some (st, w')
       /\ Rabs (ParticleState.pos st - 54.5230) < 0.001.
Proof.
  assert (H : linear_test (pure_fixed (W := unit) exponential)).
  { intros state time offset previous w. reflexivity. }
  split; [exact H|].
  exact (proj2 (RK4_growth (pure_fixed exponential) H) 1 tt 0 tt).
Defined.

(** ** The number of evaluator calls *)

Lemma counting_stage_loop {X W} (ev : GenericEval X W)
    (state : ParticleState.t X) (time deltaTime : R)
    (tableau : ButcherTableau.t) n i ks w c ks' w' :
  for_loop n i (stage_body state time deltaTime tableau ev) ks w
  = Some (ks', w') ->
  for_loop n i (stage_body state time deltaTime tableau (counting_generic ev))
    ks (w, c)
  = Some (ks', (w', (c + n)%nat)).
Proof.
  revert i ks w c. induction n as [|n IH]; intros i ks w c.
  - cbn [for_loop]. unfold ret. intros [= <- <-].
    rewrite Nat.add_0_r. reflexivity.
  - cbn [for_loop]. intros Hrun.
    unfold bind at 1 in Hrun. unfold stage_body, bind, call, vec_set in Hrun.
    unfold bind at 1. unfold stage_body, bind, call, vec_set, counting_generic.
    cbn [fst snd].
    destruct (ev state time deltaTime ks tableau (Z.of_nat i) w) as [k w1].
    destruct (decide _) as [_|_]; unfold ret, undefined in *; [|discriminate].
    replace (c + S n)%nat with (S c + n)%nat by lia.
    exact (IH _ _ _ (S c) Hrun).
Qed.

(** X12: whatever the evaluator is and does, one step calls it once in
    [Euler] and [MidPoint], twice in [Ralston], four times in [RK4] and
    [tableau.b.size()] times in [ExplicitRungeKutta]; counting the calls
    changes neither the state returned nor the evaluator's world. *)
Theorem evaluator_call_counts {X W} (state : ParticleState.t X)
    (time deltaTime : R) (w : W) (c : nat) :
  (forall (s : FixedStepper) (ev : FixedEval X W),
     exists st w',
       run_fixed s state time deltaTime ev w = Some (st, w')
       /\ run_fixed s state time deltaTime (counting_fixed ev) (w, c)
          = Some (st, (w', (c + stage_count s)%nat)))
  /\ (forall tableau (ev : GenericEval X W),
        exists st w',
          ExplicitRungeKutta state time deltaTime tableau ev w = Some (st, w')
          /\ ExplicitRungeKutta state time deltaTime tableau
               (counting_generic ev) (w, c)
             = Some (st, (w', (c + length (ButcherTableau.b tableau))%nat))).
Proof.
  split.
  - intros s ev.
    destruct s; cbn [run_fixed stage_count]; run;
      unfold counting_fixed;
      repeat (cbn [fst snd];
              match goal with
              | |- context [ev ?s ?t ?o ?p ?w0] =>
                  destruct (ev s t o p w0) as [? ?]
              end);
      cbn [fst snd];
      eexists _, _; (split; [reflexivity|]);
      rewrite ?Nat.add_succ_r, ?Nat.add_0_r; reflexivity.
  - intros tableau ev.
    set (ks0 := replicate (length (ButcherTableau.b tableau))
                  DeltaState.default).
    destruct (stage_loop_defined state time deltaTime tableau ev
                (length (ButcherTableau.b tableau)) 0 ks0 w)
      as (ks & w' & Hrun & Hlen).
    { unfold ks0. rewrite length_replicate. cbn. lia. }
    assert (Hks : length ks = length (ButcherTableau.b tableau)).
    { rewrite Hlen. apply length_replicate. }
    eexists _, w'. split.
    + apply (ExplicitRungeKutta_after_stages _ _ _ _ _ _ _ ks Hrun Hks).
    + apply (ExplicitRungeKutta_after_stages _ _ _ _ _ _ _ ks); [|exact Hks].
      apply counting_stage_loop. exact Hrun.
Qed.

(** ** When Euler's offset does not matter *)

(** X13: [Euler] hands the evaluator [deltaTime] as the time offset where the
    first stage of the other steppers hands it 0.  For an evaluator whose
    answer to the zero placeholder does not depend on the offset, this makes
    no difference: [Euler] then returns what [ExplicitRungeKutta] returns on
    the one-stage tableau [b = [1]], whose only stage is evaluated at offset
    0. *)
Theorem Euler_one_stage_tableau {X W} (f : PureFixed X) :
  (forall state time offset,
     f state time offset DeltaState.default
     = f state time 0 DeltaState.default) ->
  forall (state : ParticleState.t X) (time deltaTime : R)
         (a : list (list R)) (c : list R) (w : W),
    Euler state time deltaTime (pure_fixed f) w
    = ExplicitRungeKutta state time deltaTime (ButcherTableau.mk a [1] c)
        (pure_generic (generic_of_fixed f)) w.
Proof.
  intros Hf state time deltaTime a c w.
  rewrite (ExplicitRungeKutta_spec state time deltaTime
             (ButcherTableau.mk a [1] c) (generic_of_fixed f)
             (fun _ w => w)) by reflexivity.
  rewrite fold_left_skip. cbn [ButcherTableau.b length stages_after].
  unfold generic_of_fixed. rewrite !Nat2Z.id. cbn. unfold weight. cbn.
  run. rewrite (Hf state time deltaTime). same_state.
Qed.

Lemma Euler_one_stage_tableau_witness :
  (forall (state : ParticleState.t unit) time offset,
     exponential state time offset DeltaState.default
     = exponential state time 0 DeltaState.default)
  /\ Euler (particle 1 1) 0 0.5 (pure_fixed exponential) tt
     = ExplicitRungeKutta (particle 1 1) 0 0.5 (ButcherTableau.mk [[0]] [1] [0])
         (pure_generic (generic_of_fixed exponential)) tt.
Proof.
  assert (H : forall (state : ParticleState.t unit) time offset,
    exponential state time offset DeltaState.default
    = exponential state time 0 DeltaState.default).
  { intros state time offset. unfold exponential, DeltaState.default. cbn.
    f_equal; lra. }
  split; [exact H|].
  exact (Euler_one_stage_tableau exponential H (particle 1 1) 0 0.5 [[0]] [0] tt).
Defined.

(** * The steppers over IEEE 754 doubles *)

Ltac run64 :=
  unfold Binary64.Euler, Binary64.MidPoint, Binary64.Ralston, Binary64.RK4,
    bind, call, ret,
    Binary64.ParticleState.set_pos, Binary64.ParticleState.set_vel;
  cbn [fst snd Binary64.ParticleState.pos Binary64.ParticleState.vel
       Binary64.ParticleState.other].

Section OnDoubles.
Import PrimFloat FloatOps FloatAxioms SpecFloat.
#[local] Set Warnings "-inexact-float".
Local Open Scope float_scope.

(** ** Zeros, infinities and NaN *)

Lemma SFcompare_refl x : x <> S754_nan -> SFcompare x x = Some Eq.
Proof.
  destruct x as [s|s| |s m e]; intros Hx; cbn.
  - reflexivity.
  - destruct s; reflexivity.
  - congruence.
  - rewrite Z.compare_refl, Pos.compare_cont_refl. destruct s; reflexivity.
Qed.

Lemma is_nan_SF x : is_nan x = true <-> Prim2SF x = S754_nan.
Proof.
  unfold is_nan. rewrite eqb_spec. unfold SFeqb. split.
  - intros H. destruct (Prim2SF x) eqn:Hx; try reflexivity;
      rewrite SFcompare_refl in H by discriminate; discriminate.
  - intros ->. reflexivity.
Qed.







Lemma add_nan_l p d : is_nan p = true -> is_nan (p + d) = true.
Proof.
  rewrite !is_nan_SF, add_spec. intros ->. reflexivity.
Qed.

Lemma add_nan_r p d : is_nan d = true -> is_nan (p + d) = true.
Proof.
  rewrite !is_nan_SF, add_spec. intros ->. unfold SF64add.
  destruct (Prim2SF p); reflexivity.
Qed.



End OnDoubles.

Section SteppersOnDoubles.
Import PrimFloat.
#[local] Set Warnings "-inexact-float".
Local Open Scope float_scope.
Context {X W : Type}.
Implicit Types (state : Binary64.ParticleState.t X) (time deltaTime : float).
Implicit Types (w : W).

(** ** The shape of one step *)

(** A fixed-stage stepper returns the old state with [m * x] added to [pos]
    and [m * y] to [vel], where the multiplier [m] is [deltaTime], or
    [deltaTime / 6.0] in [RK4]. *)
Lemma run_fixed_shape64 (s : FixedStepper) (ev : Binary64.FixedEval X W)
    state time deltaTime w :
  exists m x y w',
    (m = deltaTime \/ m = deltaTime / 6.0)
    /\ Binary64.run_fixed s state time deltaTime ev w
       = Some (Binary64.ParticleState.mk
                 (Binary64.ParticleState.pos state + m * x)
                 (Binary64.ParticleState.vel state + m * y)
                 (Binary64.ParticleState.other state), w').
Proof.
  destruct s; cbn [Binary64.run_fixed]; run64;
    repeat match goal with
    | |- context [ev ?s ?t ?o ?p ?w0] => destruct (ev s t o p w0) as [? ?]
    end;
    eexists _, _, _, _; (split; [|reflexivity]); auto.
Qed.

Lemma stage_loop_defined64 (ev : Binary64.GenericEval X W)
    state time deltaTime tableau n i ks w :
  (i + n <= length ks)%nat ->
  exists ks' w',
    for_loop n i (Binary64.stage_body state time deltaTime tableau ev) ks w
      = Some (ks', w')
    /\ length ks' = length ks.
Proof.
  revert i ks w. induction n as [|n IH]; intros i ks w Hlen.
  - exists ks, w. split; reflexivity.
  - cbn [for_loop]. unfold bind at 1, Binary64.stage_body, bind, call, vec_set.
    destruct (ev state time deltaTime ks tableau (Z.of_nat i) w) as [k w1].
    destruct (decide (i < length ks)%nat) as [_|Hge]; [|lia].
    destruct (IH (S i) (<[i := k]> ks) w1) as (ks' & w' & Hrun & Hlen').
    { rewrite length_insert. lia. }
    exists ks', w'. unfold ret. split; [exact Hrun|].
    rewrite Hlen'. apply length_insert.
Qed.

Lemma sum_loop_defined64 tableau ks n i acc w :
  (i + n <= length (Binary64.ButcherTableau.b tableau))%nat ->
  (i + n <= length ks)%nat ->
  exists acc',
    for_loop n i (Binary64.sum_body tableau ks) acc w = Some (acc', w).
Proof.
  revert i acc. induction n as [|n IH]; intros i [dP dV] Hb Hk.
  - eexists. reflexivity.
  - destruct (lookup_lt_is_Some_2 (Binary64.ButcherTableau.b tableau) i)
      as [bi Hbi]; [lia|].
    destruct (lookup_lt_is_Some_2 ks i) as [ki Hki]; [lia|].
    cbn [for_loop]. unfold bind at 1, Binary64.sum_body, vec_get.
    rewrite Hbi, Hki. unfold bind, ret. apply IH; lia.
Qed.

(** The generic stepper returns too, whatever the sizes of [a], [b], [c]. *)
Lemma ExplicitRungeKutta_shape64 (ev : Binary64.GenericEval X W)
    state time deltaTime tableau w :
  exists x y w',
    Binary64.ExplicitRungeKutta state time deltaTime tableau ev w
    = Some (Binary64.ParticleState.mk
              (Binary64.ParticleState.pos state + deltaTime * x)
              (Binary64.ParticleState.vel state + deltaTime * y)
              (Binary64.ParticleState.other state), w').
Proof.
  unfold Binary64.ExplicitRungeKutta.
  set (ks0 := replicate _ Binary64.DeltaState.default).
  destruct (stage_loop_defined64 ev state time deltaTime tableau
              (length ks0) 0 ks0 w) as (ks & w' & Hrun & Hlen); [cbn; lia|].
  unfold bind at 1. rewrite Hrun.
  destruct (sum_loop_defined64 tableau ks
              (length (Binary64.ButcherTableau.b tableau)) 0 (0, 0) w')
    as ([dP dV] & Hsum);
    [cbn; lia | rewrite Hlen; unfold ks0; rewrite length_replicate; cbn; lia|].
  unfold bind. rewrite Hsum. eexists _, _, _. reflexivity.
Qed.

End SteppersOnDoubles.

Section ZeroStepOnDoubles.
Import PrimFloat.
#[local] Set Warnings "-inexact-float".
Local Open Scope float_scope.

(** ** A step of size zero, on doubles *)




(** ** Scaling the evaluator, on doubles *)

(** C7 fails on the code: [Euler] with [deltaTime = 0.3] from [pos = 0].
    The baseline evaluator returns 0.1 and the scaled one [3 * 0.1]; the
    change of [pos] is [0.3 * (3 * 0.1)] in the scaled run and 3 times
    [0.3 * 0.1] for the baseline, and the two round differently. *)
Lemma scaling_rounds_binary64 :
  (forall state time offset previous w,
     fst (Binary64.steady_scaled 3 0.1 0.1 state time offset previous w)
     = Binary64.DeltaState.mk
         (3 * Binary64.DeltaState.vel
                (fst (Binary64.steady 0.1 0.1 state time offset previous w)))
         (3 * Binary64.DeltaState.accel
                (fst (Binary64.steady 0.1 0.1 state time offset previous w))))
  /\ exists st st',
       Binary64.Euler (Binary64.particle 0 0) 0 0.3
         (Binary64.steady 0.1 0.1) tt = Some (st, tt)
       /\ Binary64.Euler (Binary64.particle 0 0) 0 0.3
            (Binary64.steady_scaled 3 0.1 0.1) tt = Some (st', tt)
       /\ (Binary64.ParticleState.pos st'
           - Binary64.ParticleState.pos (Binary64.particle 0 0)
           =? 3 * (Binary64.ParticleState.pos st
                   - Binary64.ParticleState.pos (Binary64.particle 0 0)))
          = false.
Proof.
  split.
  - intros state time offset previous w. reflexivity.
  - eexists _, _. split; [vm_compute; reflexivity|].
    split; [vm_compute; reflexivity|]. vm_compute. reflexivity.
Qed.

End ZeroStepOnDoubles.

Section MoreOnDoubles.
Import PrimFloat FloatOps FloatAxioms SpecFloat.
#[local] Set Warnings "-inexact-float".
Local Open Scope float_scope.

(** ** The tables of the source comments, on doubles *)

(** X14: on the example of the source comments ([dy/dt = y], [y(0) = 1],
    [deltaTime = 0.5]) the steppers over doubles compute every power of 1.5
    ([Euler]) and of 1.625 ([MidPoint]) without rounding, and each of the
    eight rows of either table is within [1e-4] of the value computed. *)
Theorem comment_tables_binary64 :
  Binary64.trajectory 8 EulerStepper (Binary64.particle 1 1) 0 0.5
    Binary64.exponential tt
  = [1.5; 2.25; 3.375; 5.0625; 7.59375; 11.390625; 17.0859375; 25.62890625]
  /\ Binary64.trajectory 8 MidPointStepper (Binary64.particle 1 1) 0 0.5
       Binary64.exponential tt
     = [1.625; 2.640625; 4.291015625; 6.972900390625; 11.330963134765625;
        18.412815093994140625; 29.920824527740478515625;
        48.621339857578277587890625]
  /\ forallb (fun xy => Binary64.near 0.0001 (fst xy) (snd xy))
       (combine
          (Binary64.trajectory 8 EulerStepper (Binary64.particle 1 1) 0 0.5
             Binary64.exponential tt)
          Binary64.Euler_table)
     = true
  /\ forallb (fun xy => Binary64.near 0.0001 (fst xy) (snd xy))
       (combine
          (Binary64.trajectory 8 MidPointStepper (Binary64.particle 1 1) 0 0.5
             Binary64.exponential tt)
          Binary64.MidPoint_table)
     = true.
Proof. repeat split; vm_compute; reflexivity. Qed.

(** ** NaN is never repaired *)

Lemma mul_nan_r m x : is_nan x = true -> is_nan (m * x) = true.
Proof.
  rewrite !is_nan_SF, mul_spec. intros ->. unfold SF64mul.
  destruct (Prim2SF m); reflexivity.
Qed.

Lemma mul_nan_l m x : is_nan m = true -> is_nan (m * x) = true.
Proof.
  rewrite !is_nan_SF, mul_spec. intros ->. reflexivity.
Qed.

(** X15: no stepper repairs a NaN or signals it: for every evaluator, time
    and [deltaTime], a [pos] that is NaN before the step is NaN after it,
    and so for [vel]. *)
Theorem NaN_state_stays_NaN {X W : Type}
    (state : Binary64.ParticleState.t X) (time deltaTime : float) (w : W) :
  (forall (s : FixedStepper) (ev : Binary64.FixedEval X W),
     exists st w',
       Binary64.run_fixed s state time deltaTime ev w = Some (st, w')
       /\ (is_nan (Binary64.ParticleState.pos state) = true ->
           is_nan (Binary64.ParticleState.pos st) = true)
       /\ (is_nan (Binary64.ParticleState.vel state) = true ->
           is_nan (Binary64.ParticleState.vel st) = true))
  /\ (forall (tableau : Binary64.ButcherTableau.t)
             (ev : Binary64.GenericEval X W),
        exists st w',
          Binary64.ExplicitRungeKutta state time deltaTime tableau ev w
          = Some (st, w')
          /\ (is_nan (Binary64.ParticleState.pos state) = true ->
              is_nan (Binary64.ParticleState.pos st) = true)
          /\ (is_nan (Binary64.ParticleState.vel state) = true ->
              is_nan (Binary64.ParticleState.vel st) = true)).
Proof.
  split.
  - intros s ev.
    destruct (run_fixed_shape64 s ev state time deltaTime w)
      as (m & x & y & w' & _ & ->).
    eexists _, _. split; [reflexivity|]. cbn. split; apply add_nan_l.
  - intros tableau ev.
    destruct (ExplicitRungeKutta_shape64 ev state time deltaTime tableau w)
      as (x & y & w' & ->).
    eexists _, _. split; [reflexivity|]. cbn. split; apply add_nan_l.
Qed.

(** X16: a NaN returned by the first evaluator call of a fixed-stage stepper
    reaches the state: if the first stage's [vel] is NaN, the new [pos] is
    NaN, and if its [accel] is NaN, the new [vel] is NaN, whatever the later
    stages return. *)
Theorem NaN_stage_reaches_state {X W : Type} (s : FixedStepper)
    (ev : Binary64.FixedEval X W)
    (state : Binary64.ParticleState.t X) (time deltaTime : float) (w : W) :
  let k1 :=
    fst (ev state time (Binary64.first_offset s deltaTime)
           Binary64.DeltaState.default w) in
  exists st w',
    Binary64.run_fixed s state time deltaTime ev w = Some (st, w')
    /\ (is_nan (Binary64.DeltaState.vel k1) = true ->
        is_nan (Binary64.ParticleState.pos st) = true)
    /\ (is_nan (Binary64.DeltaState.accel k1) = true ->
        is_nan (Binary64.ParticleState.vel st) = true).
Proof.
  intros k1. subst k1.
  destruct s; cbn [Binary64.run_fixed Binary64.first_offset]; run64;
    repeat match goal with
    | |- context [ev ?s ?t ?o ?p ?w0] => destruct (ev s t o p w0) as [? ?]
    end;
    cbn [fst]; eexists _, _; (split; [reflexivity|]); cbn;
    split; intros Hnan;
    eauto 8 using add_nan_l, add_nan_r, mul_nan_l, mul_nan_r.
Qed.

End MoreOnDoubles.
